(** * GraphQL request parsing of msw: src/utils/internal/parseGraphQLRequest.ts

    The file embeds [parseQuery], [extractMultipartVariables],
    [getGraphQLInput] and [parseGraphQLRequest].  JavaScript objects live in
    an explicit store, because [extractMultipartVariables] writes into the
    object it is handed and a thrown error leaves those writes in place.
    What the file imports ([jsonParse], graphql's [parse],
    [getPublicUrlFromRequest]) and the members objects have by inheritance
    are parameters, collected in the class [Externals].

    The response patcher of the specification has no code among the
    sources; [Patcher] models it from the specification's words. *)

From Stdlib Require Import ZArith Strings.Ascii.
From stdpp Require Import base option list gmap strings pretty.

Open Scope string_scope.
Open Scope list_scope.

(** ** Strings *)

(** One double-quote character; string literals below never contain one. *)
Definition dquote : string := String (Ascii.ascii_of_nat 34) EmptyString.

(** [dq s] is [s] with every apostrophe turned into a double quote, so that
    JSON texts can be written down legibly. *)
Fixpoint dq (s : string) : string :=
  match s with
  | EmptyString => EmptyString
  | String c r =>
      String (if Ascii.eqb c "'"%char then Ascii.ascii_of_nat 34 else c) (dq r)
  end.

(** [String.prototype.split] with a one-character separator: the result is
    never empty, and an empty string yields one empty piece. *)
Fixpoint string_split (sep : ascii) (s : string) : list string :=
  match s with
  | EmptyString => [EmptyString]
  | String c r =>
      if Ascii.eqb c sep then EmptyString :: string_split sep r
      else match string_split sep r with
           | [] => [String c EmptyString]
           | x :: xs => String c x :: xs
           end
  end.

(** [Array.prototype.toString] on an array of strings, which is what a
    template literal applies to [paths]: the elements joined by commas. *)
Definition array_toString (l : list string) : string := String.concat "," l.

(** ** Values and the object store *)

Abbreviation loc := nat.

(** A JavaScript value.  Objects, arrays and files are references into the
    store.  Numbers are kept as integers; this code only tests a number for
    being zero and otherwise passes it on. *)
Inductive value :=
| VUndefined
| VNull
| VBool (b : bool)
| VNumber (n : Z)
| VString (s : string)
| VRef (l : loc).

#[global] Instance value_eq_dec : EqDecision value.
Proof. solve_decision. Defined.

Inductive kind := KObject | KArray | KFile.

#[global] Instance kind_eq_dec : EqDecision kind.
Proof. solve_decision. Defined.

(** An object: its kind and its own data properties. *)
Record object := Obj { okind : kind; oprops : gmap string value }.

Abbreviation heap := (list object).

#[local] Set Warnings "-register-all".

(** The result of decoding a JSON text.  An object lists each of its keys
    once, in the order [Object.entries] enumerates them. *)
Inductive json :=
| JNull
| JBool (b : bool)
| JNum (n : Z)
| JStr (s : string)
| JArr (items : list json)
| JObj (fields : list (string * json)).

(** What a [throw] carries: an [Error] with its message, or a [TypeError]
    raised by the language itself. *)
Inductive exn :=
| Error (message : string)
| TypeError.

#[global] Instance exn_eq_dec : EqDecision exn.
Proof. solve_decision. Defined.

(** How a call ends.  [Beyond] marks the places where the behaviour is
    fixed by the host or by data outside the declared types, and not by this
    code: a member that an object has without it being one of its data
    entries (inherited from a prototype, or an array's [length]); a body
    field or a decoded map whose value does not have the type the code casts
    it to; a reference to an object that the store does not hold. *)
Inductive completion (A : Type) :=
| Normal (a : A)
| Throw (e : exn)
| Beyond.
Arguments Normal {A} a.
Arguments Throw {A} e.
Arguments Beyond {A}.

(** Computations over the store.  The store is returned in every case: what
    was written before a [throw] stays written. *)
Definition M (A : Type) : Type := heap -> completion A * heap.

Definition ret {A} (a : A) : M A := fun h => (Normal a, h).
Definition throw {A} (e : exn) : M A := fun h => (Throw e, h).
Definition beyond {A} : M A := fun h => (Beyond, h).
Definition bind {A B} (m : M A) (k : A -> M B) : M B :=
  fun h =>
    match m h with
    | (Normal a, h') => k a h'
    | (Throw e, h') => (Throw e, h')
    | (Beyond, h') => (Beyond, h')
    end.

Notation "'let*' x ':=' m 'in' k" := (bind m (fun x => k))
  (at level 10, x name, m at level 100, k at level 200).

(** [new o] allocates [o] and returns the reference to it. *)
Definition new (o : object) : M value :=
  fun h => (Normal (VRef (List.length h)), h ++ [o]).

(** ** Truthiness *)

Definition truthy (v : value) : bool :=
  match v with
  | VUndefined | VNull => false
  | VBool b => b
  | VNumber n => negb (n =? 0)%Z
  | VString s => negb (String.eqb s EmptyString)
  | VRef _ => true
  end.

Definition json_truthy (j : json) : bool :=
  match j with
  | JNull => false
  | JBool b => b
  | JNum n => negb (n =? 0)%Z
  | JStr s => negb (String.eqb s EmptyString)
  | JArr _ | JObj _ => true
  end.

(** ** Reading decoded JSON *)

Fixpoint assoc {A} (k : string) (l : list (string * A)) : option A :=
  match l with
  | [] => None
  | (k', a) :: r => if String.eqb k k' then Some a else assoc k r
  end.

(** [j.name] for a decoded JSON value [j] that is not null: only an object
    can hold [query] or [variables]. *)
Definition json_get (j : json) (name : string) : option json :=
  match j with
  | JObj fields => assoc name fields
  | _ => None
  end.

(** The array index [i] as a property name. *)
Definition index_name (i : nat) : string := pretty i.

Fixpoint index_props (i : nat) (vs : list value) : gmap string value :=
  match vs with
  | [] => ∅
  | v :: r => <[index_name i := v]> (index_props (S i) r)
  end.

(** The objects a decoded JSON value consists of, placed in the store. *)
Fixpoint alloc_json (j : json) : M value :=
  match j with
  | JNull => ret VNull
  | JBool b => ret (VBool b)
  | JNum n => ret (VNumber n)
  | JStr s => ret (VString s)
  | JArr items =>
      let* vs :=
        (fix go (l : list json) : M (list value) :=
           match l with
           | [] => ret []
           | x :: r =>
               let* v := alloc_json x in
               let* vs := go r in
               ret (v :: vs)
           end) items in
      new (Obj KArray (index_props 0 vs))
  | JObj fields =>
      let* kvs :=
        (fix go (l : list (string * json)) : M (list (string * value)) :=
           match l with
           | [] => ret []
           | (k, x) :: r =>
               let* v := alloc_json x in
               let* kvs := go r in
               ret ((k, v) :: kvs)
           end) fields in
      new (Obj KObject (list_to_map kvs))
  end.

(** What [jsonParse] returned, as a JavaScript value: [undefined] when the
    text could not be decoded. *)
Definition alloc_parsed (p : option json) : M value :=
  match p with
  | Some j => alloc_json j
  | None => ret VUndefined
  end.

(** Following [segments] from [target] through own data properties: the
    value reached, if every step starts at an object that has the segment. *)
Fixpoint lookup_path (h : heap) (target : value) (segments : list string)
  : option value :=
  match segments with
  | [] => Some target
  | segment :: rest =>
      match target with
      | VRef l =>
          match h !! l with
          | Some o =>
              match oprops o !! segment with
              | Some v => lookup_path h v rest
              | None => None
              end
          | None => None
          end
      | _ => None
      end
  end.

(** ** The GraphQL document, as far as [parseQuery] looks at it *)

Inductive OperationTypeNode := op_query | op_mutation | op_subscription.

(** A top-level definition of a document: its [kind], and for an operation
    its [operation] and the [value] of its optional [name]. *)
Inductive DefinitionNode :=
| OperationDefinition (operation : OperationTypeNode) (name : option string)
| FragmentDefinition (name : string)
| TypeSystemDefinition (kind_name : string).

(** [ast.definitions] *)
Definition DocumentNode := list DefinitionNode.

Record ParsedGraphQLQuery := {
  operationType : option OperationTypeNode;
  operationName : option string
}.

Record GraphQLInput := {
  query : option string;
  variables : value
}.

Record ParsedGraphQLRequest := {
  req_operationType : option OperationTypeNode;
  req_operationName : option string;
  req_variables : value
}.

(** The request, as far as this file reads it: [request.method],
    [request.url.searchParams] and [request.body]. *)
Record MockedRequest := {
  method : string;
  searchParams : list (string * string);
  body : value
}.

(** One call of [console.error] with its single argument. *)
Inductive console_entry :=
| LogString (text : string)
| LogError (error : exn).

(** What the file imports and the host it runs on.
    - [jsonParse] is ./jsonParse: the decoded text, or nothing ([undefined])
      when the text is not JSON;
    - [parse] is graphql's parser: a document, or the error it throws;
    - [getPublicUrlFromRequest] is ../request/getPublicUrlFromRequest;
    - [builtin_member k name] tells whether every object of kind [k] has a
      member [name] without it being one of its data entries. *)
Class Externals := {
  jsonParse : string -> option json;
  parse : string -> exn + DocumentNode;
  getPublicUrlFromRequest : MockedRequest -> string;
  builtin_member : kind -> string -> bool
}.

Section Code.
Context `{Externals}.

(** ** Property access *)

(** [path in target] *)
Definition has_property (target : value) (path : string) : M bool :=
  fun h =>
    match target with
    | VRef l =>
        match h !! l with
        | Some o =>
            match oprops o !! path with
            | Some _ => (Normal true, h)
            | None => (Normal (builtin_member (okind o) path), h)
            end
        | None => (Beyond, h)
        end
    | _ => (Throw TypeError, h)
    end.

(** [target[path]] *)
Definition get_property (target : value) (path : string) : M value :=
  fun h =>
    match target with
    | VRef l =>
        match h !! l with
        | Some o =>
            match oprops o !! path with
            | Some v => (Normal v, h)
            | None =>
                if builtin_member (okind o) path then (Beyond, h)
                else (Normal VUndefined, h)
            end
        | None => (Beyond, h)
        end
    | VUndefined | VNull => (Throw TypeError, h)
    | _ => (Beyond, h)
    end.

(** [target[key] = v], in strict mode: a primitive target is a [TypeError]. *)
Definition set_property (target : value) (key : string) (v : value) : M unit :=
  fun h =>
    match target with
    | VRef l =>
        match h !! l with
        | Some o =>
            match oprops o !! key with
            | None =>
                if builtin_member (okind o) key then (Beyond, h)
                else (Normal tt, <[l := Obj (okind o) (<[key := v]> (oprops o))]> h)
            | Some _ =>
                (Normal tt, <[l := Obj (okind o) (<[key := v]> (oprops o))]> h)
            end
        | None => (Beyond, h)
        end
    | _ => (Throw TypeError, h)
    end.

(** [request.body?.name] for the names this file reads ([query],
    [variables], [operations], [map]); none of them is a built-in member, so
    a body that is not an object yields [undefined]. *)
Definition body_field (b : value) (name : string) : M value :=
  fun h =>
    match b with
    | VRef l =>
        match h !! l with
        | Some o => (Normal (default VUndefined (oprops o !! name)), h)
        | None => (Beyond, h)
        end
    | _ => (Normal VUndefined, h)
    end.

(** The own properties of the body, which the rest pattern [...files]
    copies. *)
Definition body_props (b : value) : M (gmap string value) :=
  fun h =>
    match b with
    | VRef l =>
        match h !! l with
        | Some o => (Normal (oprops o), h)
        | None => (Beyond, h)
        end
    | _ => (Normal ∅, h)
    end.

(** [key in files], where [files] is the plain object made by the rest
    pattern. *)
Definition key_in_files (files : gmap string value) (key : string) : bool :=
  match files !! key with
  | Some _ => true
  | None => builtin_member KObject key
  end.

(** [files[key]] *)
Definition files_get (files : gmap string value) (key : string) : M value :=
  match files !! key with
  | Some v => ret v
  | None => if builtin_member KObject key then beyond else ret VUndefined
  end.

(** ** extractMultipartVariables *)

Definition missing_key_message (key : string) : string :=
  "Given files do not have a key '" +:+ key +:+ "' .".

Definition missing_property_message (paths : list string) : string :=
  "Property '" +:+ array_toString paths +:+ "' is not in operations.".

(** The loop [for (const path of paths)]; [paths] is kept for the message. *)
Fixpoint walk (paths : list string) (remaining : list string) (target : value)
  : M value :=
  match remaining with
  | [] => ret target
  | path :: remaining' =>
      let* present := has_property target path in
      if negb present then throw (Error (missing_property_message paths))
      else
        let* target' := get_property target path in
        walk paths remaining' target'
  end.

(** [const [lastPath, ...reversedPaths] = dotPath.split('.').reverse()] and
    [const paths = reversedPaths.reverse()] *)
Definition split_dotPath (dotPath : string) : string * list string :=
  match rev (string_split "." dotPath) with
  | lastPath :: reversedPaths => (lastPath, rev reversedPaths)
  | [] => ("undefined", [])
  end.

(** The body of [for (const dotPath of pathArray)]. *)
Definition assign_dotPath (operations : value) (files : gmap string value)
    (key dotPath : string) : M unit :=
  let '(lastPath, paths) := split_dotPath dotPath in
  let* target := walk paths paths operations in
  let* file := files_get files key in
  set_property target lastPath file.

Fixpoint for_of {A} (body : A -> M unit) (l : list A) : M unit :=
  match l with
  | [] => ret tt
  | x :: r => let* _ := body x in for_of body r
  end.

(** The body of [for (const [key, pathArray] of Object.entries(map))]. *)
Definition extract_entry (operations : value) (files : gmap string value)
    (entry : string * list string) : M unit :=
  let '(key, pathArray) := entry in
  if negb (key_in_files files key) then throw (Error (missing_key_message key))
  else for_of (assign_dotPath operations files key) pathArray.

(** [map] is given as [Object.entries(map)]. *)
Definition extractMultipartVariables (variables : value)
    (map : list (string * list string)) (files : gmap string value) : M value :=
  let* operations := new (Obj KObject {[ "variables" := variables ]}) in
  let* _ := for_of (extract_entry operations files) map in
  get_property operations "variables".

(** ** getGraphQLInput *)

(** [URLSearchParams.prototype.get]: the first value of that name, or
    [null]. *)
Definition searchParams_get (name : string) (params : list (string * string))
  : option string := assoc name params.

(** [jsonParse(text) || {}] *)
Definition or_empty_object (p : option json) : json :=
  match p with
  | Some j => if json_truthy j then j else JObj []
  | None => JObj []
  end.

Definition as_path (j : json) : option string :=
  match j with JStr s => Some s | _ => None end.

Definition as_pathArray (j : json) : option (list string) :=
  match j with
  | JArr items => mapM as_path items
  | _ => None
  end.

(** [Object.entries] of a decoded map that has the declared type
    [Record<string, string[]>]; nothing when it has not. *)
Definition Object_entries (j : json) : option (list (string * list string)) :=
  match j with
  | JObj fields =>
      mapM (fun '(key, pathArray) =>
              match as_pathArray pathArray with
              | Some paths => Some (key, paths)
              | None => None
              end) fields
  | _ => None
  end.

(** The multipart branch of [case 'POST'], entered with a truthy
    [request.body.operations]. *)
Definition getMultipartInput (b : value) (operations : value)
  : M (option GraphQLInput) :=
  let* props := body_props b in
  let* map := body_field b "map" in
  let files := delete "operations" (delete "map" props) in
  match operations with
  | VString text =>
      let parsedOperations := or_empty_object (jsonParse text) in
      let parsed_query := json_get parsedOperations "query" in
      if negb (from_option json_truthy false parsed_query) then ret None
      else
        let* map_text :=
          (if negb (truthy map) then ret EmptyString
           else match map with VString s => ret s | _ => beyond end) in
        let parsedMap := or_empty_object (jsonParse map_text) in
        let parsed_variables := json_get parsedOperations "variables" in
        let* variables :=
          (match parsed_variables with
           | Some j =>
               if json_truthy j then
                 let* v := alloc_json j in
                 match Object_entries parsedMap with
                 | Some entries => extractMultipartVariables v entries files
                 | None => beyond
                 end
               else new (Obj KObject ∅)
           | None => new (Obj KObject ∅)
           end) in
        match parsed_query with
        | Some (JStr s) => ret (Some {| query := Some s; variables := variables |})
        | _ => beyond
        end
  | _ => beyond
  end.

(** What [case 'POST'] does once the test of [request.body?.query] has
    failed: the multipart branch, or falling out of the [switch]. *)
Definition POST_without_query (request : MockedRequest) : M (option GraphQLInput) :=
  let* operations := body_field (body request) "operations" in
  if truthy operations then getMultipartInput (body request) operations
  else ret None.

Definition getGraphQLInput (request : MockedRequest) : M (option GraphQLInput) :=
  if String.eqb (method request) "GET" then
    let query := searchParams_get "query" (searchParams request) in
    let variables :=
      default EmptyString (searchParams_get "variables" (searchParams request)) in
    let* variables := alloc_parsed (jsonParse variables) in
    ret (Some {| query := query; variables := variables |})
  else if String.eqb (method request) "POST" then
    let* query := body_field (body request) "query" in
    if truthy query then
      let* variables := body_field (body request) "variables" in
      match query with
      | VString query => ret (Some {| query := Some query; variables := variables |})
      | _ => beyond
      end
    else POST_without_query request
  else ret None.

(** The same request with every [query] parameter taken off its URL. *)
Definition without_query_param (request : MockedRequest) : MockedRequest :=
  {| method := method request;
     searchParams :=
       List.filter (fun p => negb (String.eqb (fst p) "query")) (searchParams request);
     body := body request |}.

(** The store in which the object at [l] has lost its [query] property. *)
Definition without_query_field (l : loc) (h : heap) : heap :=
  match h !! l with
  | Some o => <[l := Obj (okind o) (delete "query" (oprops o))]> h
  | None => h
  end.

(** ** parseQuery *)

Definition is_OperationDefinition (def : DefinitionNode) : bool :=
  match def with
  | OperationDefinition _ _ => true
  | _ => false
  end.

Definition parseQuery (query : string) : exn + ParsedGraphQLQuery :=
  match parse query with
  | inl error => inl error
  | inr ast =>
      let operationDef := List.find is_OperationDefinition ast in
      inr {| operationType :=
               match operationDef with
               | Some (OperationDefinition operation _) => Some operation
               | _ => None
               end;
             operationName :=
               match operationDef with
               | Some (OperationDefinition _ name) => name
               | _ => None
               end |}
  end.

(** ** parseGraphQLRequest *)

Definition parse_failure_message (request : MockedRequest) : string :=
  "[MSW] Failed to intercept a GraphQL request to " +:+ dquote +:+
  method request +:+ " " +:+ getPublicUrlFromRequest request +:+ dquote +:+
  ": cannot parse query. See the error message from the parser below.".

(** The result, the store afterwards, and what was written with
    [console.error], oldest first.  [None] in the result is [null]. *)
Definition parseGraphQLRequest (request : MockedRequest) (h : heap)
  : completion (option ParsedGraphQLRequest) * heap * list console_entry :=
  match getGraphQLInput request h with
  | (Normal None, h') => (Normal None, h', [])
  | (Normal (Some input), h') =>
      match query input with
      | None => (Normal None, h', [])
      | Some query =>
          if negb (truthy (VString query)) then (Normal None, h', [])
          else
            match parseQuery query with
            | inl error =>
                (Normal None, h',
                 [LogString (parse_failure_message request); LogError error])
            | inr parsedResult =>
                (Normal (Some {| req_operationType := operationType parsedResult;
                                 req_operationName := operationName parsedResult;
                                 req_variables := variables input |}),
                 h', [])
            end
      end
  | (Throw e, h') => (Throw e, h', [])
  | (Beyond, h') => (Beyond, h', [])
  end.

End Code.

(** ** A sample host, for running the definitions *)

Definition Object_prototype_members : list string :=
  [ "constructor"; "__proto__"; "hasOwnProperty"; "isPrototypeOf";
    "propertyIsEnumerable"; "toString"; "toLocaleString"; "valueOf";
    "__defineGetter__"; "__defineSetter__"; "__lookupGetter__";
    "__lookupSetter__" ].

Definition sample_builtin_member (k : kind) (name : string) : bool :=
  existsb (String.eqb name) Object_prototype_members
  || match k with
     | KArray => String.eqb name "length"
     | _ => false
     end.

Definition operations_text : string :=
  dq "{'query':'query Test{x}','variables':{'file':null}}".

Definition map_text : string := dq "{'0':['variables.file']}".

(** A decoder that knows a handful of texts. *)
Definition sample_jsonParse (text : string) : option json :=
  if String.eqb text operations_text then
    Some (JObj [("query", JStr "query Test{x}");
                ("variables", JObj [("file", JNull)])])
  else if String.eqb text map_text then
    Some (JObj [("0", JArr [JStr "variables.file"])])
  else if String.eqb text (dq "{'query':'query Test{x}'}") then
    Some (JObj [("query", JStr "query Test{x}")])
  else if String.eqb text (dq "{'query':'{x}','variables':{'a':null,'b':null}}") then
    Some (JObj [("query", JStr "{x}");
                ("variables", JObj [("a", JNull); ("b", JNull)])])
  else if String.eqb text (dq "{'0':['variables.a'],'1':['variables.b']}") then
    Some (JObj [("0", JArr [JStr "variables.a"]);
                ("1", JArr [JStr "variables.b"])])
  else if String.eqb text (dq "{'0':['variables.nested.file']}") then
    Some (JObj [("0", JArr [JStr "variables.nested.file"])])
  else if String.eqb text (dq "{'a':1}") then
    Some (JObj [("a", JNum 1)])
  else if String.eqb text (dq "{'query':'{','variables':{'file':null}}") then
    Some (JObj [("query", JStr "{"); ("variables", JObj [("file", JNull)])])
  else if String.eqb text (dq "{'operations':['variables.file']}") then
    Some (JObj [("operations", JArr [JStr "variables.file"])])
  else if String.eqb text (dq "{'note':[]}") then
    Some (JObj [("note", JArr [])])
  else None.

(** A parser that knows a handful of documents. *)
Definition sample_parse (text : string) : exn + DocumentNode :=
  if String.eqb text "mutation CreatePost { id }" then
    inr [OperationDefinition op_mutation (Some "CreatePost")]
  else if String.eqb text "{ __typename }" then
    inr [OperationDefinition op_query None]
  else if String.eqb text "query Test{x}" then
    inr [OperationDefinition op_query (Some "Test")]
  else if String.eqb text "{x}" then
    inr [OperationDefinition op_query None]
  else if String.eqb text "fragment F on T { id }" then
    inr [FragmentDefinition "F"]
  else inl (Error "Syntax Error").

Definition sample_externals : Externals := {|
  jsonParse := sample_jsonParse;
  parse := sample_parse;
  getPublicUrlFromRequest := fun _ => "http://localhost/graphql";
  builtin_member := sample_builtin_member
|}.

(** ** Sample requests *)

Definition POST_to (b : value) : MockedRequest :=
  {| method := "POST"; searchParams := []; body := b |}.

(** A JSON body [{query: "{x}", variables: {a: 1}}]; the body is object 0. *)
Definition json_body_heap : heap :=
  [ Obj KObject (<["query" := VString "{x}"]> {[ "variables" := VRef 1 ]});
    Obj KObject {[ "a" := VNumber 1 ]} ].

(** The same body with an empty [query]. *)
Definition empty_query_heap : heap :=
  [ Obj KObject (<["query" := VString EmptyString]> {[ "variables" := VRef 1 ]});
    Obj KObject {[ "a" := VNumber 1 ]} ].

(** The multipart body of the example: a file (object 0) is the part named
    0 of the body (object 1). *)
Definition multipart_heap : heap :=
  [ Obj KFile ∅;
    Obj KObject (<["operations" := VString operations_text]>
                   (<["map" := VString map_text]> {[ "0" := VRef 0 ]})) ].

(** A multipart body whose map names the part 0, which is not there. *)
Definition missing_file_heap : heap :=
  [ Obj KObject (<["operations" := VString operations_text]>
                   {[ "map" := VString map_text ]}) ].

(** A multipart body whose map leads through [variables.nested], which the
    variables do not have. *)
Definition missing_segment_heap : heap :=
  [ Obj KFile ∅;
    Obj KObject (<["operations" := VString operations_text]>
                   (<["map" := VString (dq "{'0':['variables.nested.file']}")]>
                      {[ "0" := VRef 0 ]})) ].

(** A multipart body with variables [a] and [b], a map that sends part 0 to
    [a] and part 1 to [b], and only part 0. *)
Definition second_file_missing_heap : heap :=
  [ Obj KFile ∅;
    Obj KObject
      (<["operations" :=
           VString (dq "{'query':'{x}','variables':{'a':null,'b':null}}")]>
         (<["map" := VString (dq "{'0':['variables.a'],'1':['variables.b']}")]>
            {[ "0" := VRef 0 ]})) ].

(** Operations without variables, and a map that names a part that is not
    there. *)
Definition no_variables_heap : heap :=
  [ Obj KObject (<["operations" := VString (dq "{'query':'query Test{x}'}")]>
                   {[ "map" := VString map_text ]}) ].

(** Variables [{a: null, b: null}] (object 0) and a file (object 1), as
    [extractMultipartVariables] receives them. *)
Definition two_variables_heap : heap :=
  [ Obj KObject (<["a" := VNull]> {[ "b" := VNull ]}); Obj KFile ∅ ].

(** Variables [{file: null}] (object 0), the wrapper [{variables}]
    (object 1) and a file (object 2). *)
Definition wrapped_variables_heap : heap :=
  [ Obj KObject {[ "file" := VNull ]};
    Obj KObject {[ "variables" := VRef 0 ]};
    Obj KFile ∅ ].

(** The files of a body whose only part is the one named 0. *)
Definition only_part_0 (file : value) : gmap string value := {[ "0" := file ]}.

Definition two_entries_map : list (string * list string) :=
  [ ("0", ["variables.a"]); ("1", ["variables.b"]) ].

(** A multipart body whose [operations] is not JSON. *)
Definition undecodable_operations_heap : heap :=
  [ Obj KObject (<["operations" := VString "not json"]>
                   {[ "map" := VString map_text ]}) ].

(** The multipart body of the example without its [map]. *)
Definition no_map_heap : heap :=
  [ Obj KFile ∅;
    Obj KObject (<["operations" := VString operations_text]> {[ "0" := VRef 0 ]}) ].


(** A multipart body whose query does not parse and whose map names the
    part 0, which is not there. *)
Definition invalid_query_missing_file_heap : heap :=
  [ Obj KObject
      (<["operations" := VString (dq "{'query':'{','variables':{'file':null}}")]>
         {[ "map" := VString map_text ]}) ].

(** The multipart body of the example with a map keyed [operations]. *)
Definition map_keyed_operations_heap : heap :=
  [ Obj KFile ∅;
    Obj KObject (<["operations" := VString operations_text]>
                   (<["map" := VString (dq "{'operations':['variables.file']}")]>
                      {[ "0" := VRef 0 ]})) ].

(** The multipart body of the example with a text field [note] and a map
    keyed [note] that lists no path. *)
Definition map_keyed_note_heap : heap :=
  [ Obj KObject (<["operations" := VString operations_text]>
                   (<["map" := VString (dq "{'note':[]}")]>
                      {[ "note" := VString "hello" ]})) ].

(** ** The response patcher *)

Module Patcher.

(** Modelled from the spec: the Response Patcher (sections 3 and 4.6), whose
    code is not among the sources; only a test of it is.  A response has a
    status code, an ordered list of headers in which a name may repeat, and
    a body that a resolver may leave out. *)
Record Response := {
  status : nat;
  headers : list (string * string);
  body : option string
}.

Definition has_header (name : string) (hs : list (string * string)) : bool :=
  existsb (fun header => String.eqb (fst header) name) hs.

(** The values a list of headers gives to [name], in order. *)
Definition header_values (name : string) (hs : list (string * string))
  : list string :=
  List.map snd (List.filter (fun header => String.eqb (fst header) name) hs).

(** Modelled from the spec: the merge rule of section 3.  The resolved
    response's headers come first and replace the original headers of the
    same name; the other original headers follow; the resolved body wins
    when there is one.  The status is the resolved one (mock fields take
    precedence).  Without an original response the resolved one passes
    through. *)
Definition patchResponse (resolved : Response) (original : option Response)
  : Response :=
  match original with
  | None => resolved
  | Some original =>
      {| status := status resolved;
         headers :=
           headers resolved ++
           List.filter (fun header => negb (has_header (fst header) (headers resolved)))
             (headers original);
         body :=
           match body resolved with
           | Some b => Some b
           | None => body original
           end |}
  end.

End Patcher.

(** ** Notions used to state properties *)

(** [s] contains no dot. *)
Fixpoint no_dot (s : string) : bool :=
  match s with
  | EmptyString => true
  | String c r => negb (Ascii.eqb c ".") && no_dot r
  end.

(** A value that is not a reference to an object. *)
Definition is_primitive (v : value) : bool :=
  match v with
  | VRef _ => false
  | _ => true
  end.

(** [o'] is [o] with some properties written or added: the kind is the same
    and no property is gone. *)
Definition object_extends (o o' : object) : Prop :=
  okind o' = okind o /\
  forall name, is_Some (oprops o !! name) -> is_Some (oprops o' !! name).

(** Every object of [h] is still in [h'], at the same place, extended. *)
Definition store_extends (h h' : heap) : Prop :=
  forall l o, h !! l = Some o ->
  exists o', h' !! l = Some o' /\ object_extends o o'.

(** A computation that, however it ends, removes nothing from the store. *)
Definition only_extends {A} (m : M A) : Prop :=
  forall h c h', m h = (c, h') ->
  List.length h <= List.length h' /\ store_extends h h'.

(** * Properties *)

Section Properties.
Context `{Externals}.

(** ** Sequencing *)

Lemma bind_normal {A B} (m : M A) (k : A -> M B) (h h' : heap) (a : A) :
  m h = (Normal a, h') -> bind m k h = k a h'.
Proof. intros Hm. unfold bind. by rewrite Hm. Qed.

(** ** Reading the body *)

Lemma body_field_object (l : loc) (o : object) (name : string) (h : heap) :
  h !! l = Some o ->
  body_field (VRef l) name h = (Normal (default VUndefined (oprops o !! name)), h).
Proof. intros Hl. unfold body_field. by rewrite Hl. Qed.

Lemma body_field_heap (b : value) (name : string) (h h' : heap) (c : completion value) :
  body_field b name h = (c, h') -> h' = h.
Proof.
  unfold body_field. intros Hb.
  destruct b; try (by inversion Hb).
  destruct (h !! l); by inversion Hb.
Qed.

(** ** parseQuery *)

Lemma find_operation_first (pre rest : list DefinitionNode)
    (operation : OperationTypeNode) (name : option string) :
  forallb (fun def => negb (is_OperationDefinition def)) pre = true ->
  List.find is_OperationDefinition (pre ++ OperationDefinition operation name :: rest)
  = Some (OperationDefinition operation name).
Proof.
  induction pre as [|def pre IH]; simpl; [done|].
  intros Hpre. apply andb_prop in Hpre as [Hdef Hpre].
  destruct (is_OperationDefinition def); [done|]. by apply IH.
Qed.

Lemma find_operation_none (ast : list DefinitionNode) :
  forallb (fun def => negb (is_OperationDefinition def)) ast = true ->
  List.find is_OperationDefinition ast = None.
Proof.
  induction ast as [|def ast IH]; simpl; [done|].
  intros Hast. apply andb_prop in Hast as [Hdef Hast].
  destruct (is_OperationDefinition def); [done|]. by apply IH.
Qed.

(** ** The store only grows while JSON is allocated *)

Lemma alloc_json_extends (j : json) (h : heap) :
  exists v fresh, alloc_json j h = (Normal v, h ++ fresh).
Proof.
  revert j h. fix IH 1. intros j h. destruct j as [| b | n | s | items | fields].
  - exists VNull, []. by rewrite app_nil_r.
  - exists (VBool b), []. by rewrite app_nil_r.
  - exists (VNumber n), []. by rewrite app_nil_r.
  - exists (VString s), []. by rewrite app_nil_r.
  - cbn [alloc_json].
    set (go := fix go (l : list json) : M (list value) :=
           match l with
           | [] => ret []
           | x :: r =>
               let* v := alloc_json x in
               let* vs := go r in
               ret (v :: vs)
           end).
    assert (Hgo : forall l h0, exists vs fresh, go l h0 = (Normal vs, h0 ++ fresh)).
    { clear -IH. induction l as [|x r IHr]; intros h0.
      - exists [], []. by rewrite app_nil_r.
      - destruct (IH x h0) as (v & f1 & Hx).
        destruct (IHr (h0 ++ f1)) as (vs & f2 & Hr).
        exists (v :: vs), (f1 ++ f2). cbn [go]. unfold bind at 1. rewrite Hx.
        unfold bind at 1. rewrite Hr. by rewrite app_assoc. }
    destruct (Hgo items h) as (vs & fresh & Hitems).
    unfold bind. rewrite Hitems. unfold new.
    eexists _, (fresh ++ [_]). by rewrite app_assoc.
  - cbn [alloc_json].
    set (go := fix go (l : list (string * json)) : M (list (string * value)) :=
           match l with
           | [] => ret []
           | (k, x) :: r =>
               let* v := alloc_json x in
               let* kvs := go r in
               ret ((k, v) :: kvs)
           end).
    assert (Hgo : forall l h0, exists kvs fresh, go l h0 = (Normal kvs, h0 ++ fresh)).
    { clear -IH. induction l as [|[k x] r IHr]; intros h0.
      - exists [], []. by rewrite app_nil_r.
      - destruct (IH x h0) as (v & f1 & Hx).
        destruct (IHr (h0 ++ f1)) as (kvs & f2 & Hr).
        exists ((k, v) :: kvs), (f1 ++ f2). cbn [go]. unfold bind at 1. rewrite Hx.
        unfold bind at 1. rewrite Hr. by rewrite app_assoc. }
    destruct (Hgo fields h) as (kvs & fresh & Hfields).
    unfold bind. rewrite Hfields. unfold new.
    eexists _, (fresh ++ [_]). by rewrite app_assoc.
Qed.

Lemma alloc_parsed_extends (p : option json) (h : heap) :
  exists v fresh, alloc_parsed p h = (Normal v, h ++ fresh).
Proof.
  destruct p as [j|]; [apply alloc_json_extends|].
  exists VUndefined, []. by rewrite app_nil_r.
Qed.

(** A GET request always yields an input: the [query] parameter as it is,
    and whatever the [variables] parameter decodes to. *)
Lemma getGraphQLInput_GET (request : MockedRequest) (h : heap) :
  method request = "GET" ->
  exists v fresh,
    getGraphQLInput request h =
    (Normal (Some {| query := searchParams_get "query" (searchParams request);
                     variables := v |}), h ++ fresh)
    /\ alloc_parsed
         (jsonParse (default EmptyString
                       (searchParams_get "variables" (searchParams request)))) h
       = (Normal v, h ++ fresh).
Proof.
  intros Hm. unfold getGraphQLInput. rewrite Hm. cbn [String.eqb Ascii.eqb Bool.eqb].
  destruct (alloc_parsed_extends
              (jsonParse (default EmptyString
                            (searchParams_get "variables" (searchParams request)))) h)
    as (v & fresh & Hv).
  exists v, fresh. split; [|done]. unfold bind. by rewrite Hv.
Qed.

Lemma getGraphQLInput_other_method (request : MockedRequest) (h : heap) :
  method request <> "GET" -> method request <> "POST" ->
  getGraphQLInput request h = (Normal None, h).
Proof.
  intros Hg Hp. unfold getGraphQLInput.
  apply String.eqb_neq in Hg, Hp. by rewrite Hg, Hp.
Qed.

(** The first branch of [case 'POST']. *)
Lemma getGraphQLInput_POST_query (request : MockedRequest) (h : heap)
    (l : loc) (o : object) (text : string) :
  method request = "POST" ->
  body request = VRef l ->
  h !! l = Some o ->
  oprops o !! "query" = Some (VString text) ->
  text <> EmptyString ->
  getGraphQLInput request h =
  (Normal (Some {| query := Some text;
                   variables := default VUndefined (oprops o !! "variables") |}), h).
Proof.
  intros Hm Hb Hl Hq Hne. unfold getGraphQLInput. rewrite Hm, Hb.
  cbn [String.eqb Ascii.eqb Bool.eqb]. unfold bind.
  rewrite !(body_field_object l o) by done. rewrite Hq. simpl.
  apply String.eqb_neq in Hne. rewrite Hne. simpl.
  unfold body_field. by rewrite Hl.
Qed.

Lemma getGraphQLInput_POST_falsy_query (request : MockedRequest) (h : heap)
    (v : value) :
  method request = "POST" ->
  body_field (body request) "query" h = (Normal v, h) ->
  truthy v = false ->
  getGraphQLInput request h = POST_without_query request h.
Proof.
  intros Hm Hq Hv. unfold getGraphQLInput, POST_without_query. rewrite Hm.
  cbn [String.eqb Ascii.eqb Bool.eqb]. unfold bind at 1. by rewrite Hq, Hv.
Qed.

Lemma POST_without_query_no_operations (request : MockedRequest) (h : heap)
    (v : value) :
  body_field (body request) "operations" h = (Normal v, h) ->
  truthy v = false ->
  POST_without_query request h = (Normal None, h).
Proof.
  intros Hq Hv. unfold POST_without_query, bind. by rewrite Hq, Hv.
Qed.

(** Whatever extraction throws leaves [parseGraphQLRequest] as it is. *)
Lemma parseGraphQLRequest_rethrows (request : MockedRequest) (h h' : heap) (e : exn) :
  getGraphQLInput request h = (Throw e, h') ->
  parseGraphQLRequest request h = (Throw e, h', []).
Proof. intros Hi. unfold parseGraphQLRequest. by rewrite Hi. Qed.

(** Once extraction has returned, [parseGraphQLRequest] returns. *)
Lemma parseGraphQLRequest_after_input (request : MockedRequest) (h h' : heap)
    (input : option GraphQLInput) :
  getGraphQLInput request h = (Normal input, h') ->
  exists r log, parseGraphQLRequest request h = (Normal r, h', log).
Proof.
  intros Hi. unfold parseGraphQLRequest. rewrite Hi.
  destruct input as [input|]; [|by eexists _, _].
  destruct (query input) as [text|]; [|by eexists _, _].
  destruct (negb (truthy (VString text))); [by eexists _, _|].
  destruct (parseQuery text); by eexists _, _.
Qed.

(** ** parseQuery: the first operation definition decides *)

(** C7: [parseQuery] reads [operationType] and [operationName] off the first
    top-level operation definition of the parsed document.  A document that
    starts with [mutation CreatePost] gives type mutation and name
    CreatePost, an anonymous query gives type query and no name, and a
    document without any operation definition gives no type and no name,
    and no error. *)
Theorem parseQuery_first_operation (text : string) (ast : DocumentNode) :
  parse text = inr ast ->
  (forall pre operation name rest,
      ast = pre ++ OperationDefinition operation name :: rest ->
      forallb (fun def => negb (is_OperationDefinition def)) pre = true ->
      parseQuery text =
      inr {| operationType := Some operation; operationName := name |})
  /\ (forall rest,
        ast = OperationDefinition op_mutation (Some "CreatePost") :: rest ->
        parseQuery text =
        inr {| operationType := Some op_mutation;
               operationName := Some "CreatePost" |})
  /\ (forall rest,
        ast = OperationDefinition op_query None :: rest ->
        parseQuery text =
        inr {| operationType := Some op_query; operationName := None |})
  /\ (forallb (fun def => negb (is_OperationDefinition def)) ast = true ->
      parseQuery text = inr {| operationType := None; operationName := None |}).
Proof.
  intros Hparse. unfold parseQuery. rewrite Hparse.
  split; [|split; [|split]].
  - intros pre operation name rest -> Hpre.
    by rewrite find_operation_first.
  - by intros rest ->.
  - by intros rest ->.
  - intros Hnone. by rewrite find_operation_none.
Qed.

(** ** getGraphQLInput on a POST body with a query *)

(** C5 (amended): for a POST request whose body holds a non-empty [query]
    string, [getGraphQLInput] returns that string and the body's
    [variables] value as they are, and writes nothing. *)
Theorem getGraphQLInput_POST_query_unmodified (request : MockedRequest)
    (h : heap) (l : loc) (o : object) (text : string) :
  method request = "POST" ->
  body request = VRef l ->
  h !! l = Some o ->
  oprops o !! "query" = Some (VString text) ->
  text <> EmptyString ->
  getGraphQLInput request h =
  (Normal (Some {| query := Some text;
                   variables := default VUndefined (oprops o !! "variables") |}), h).
Proof. apply getGraphQLInput_POST_query. Qed.

(** ** An empty query *)

Lemma assoc_without_query_other {A} (name : string) (params : list (string * A)) :
  name <> "query" ->
  assoc name (List.filter (fun p => negb (String.eqb (fst p) "query")) params)
  = assoc name params.
Proof.
  intros Hname. induction params as [|[k a] params IH]; [done|].
  cbn [List.filter fst assoc].
  destruct (String.eqb_spec k "query") as [->|Hk]; cbn [negb assoc].
  - apply String.eqb_neq in Hname. by rewrite Hname.
  - by rewrite IH.
Qed.

Lemma assoc_without_query {A} (params : list (string * A)) :
  assoc "query" (List.filter (fun p => negb (String.eqb (fst p) "query")) params)
  = None.
Proof.
  induction params as [|[k a] params IH]; [done|]. cbn [List.filter fst].
  destruct (String.eqb_spec k "query") as [Hk|Hk]; cbn [negb]; [exact IH|].
  cbn [assoc].
  destruct (String.eqb_spec "query" k) as [Heq|_]; [by subst|exact IH].
Qed.

Lemma parseGraphQLRequest_no_query_text (request : MockedRequest) (h h' : heap)
    (input : GraphQLInput) :
  getGraphQLInput request h = (Normal (Some input), h') ->
  query input = Some EmptyString \/ query input = None ->
  parseGraphQLRequest request h = (Normal None, h', []).
Proof.
  intros Hi Hq. unfold parseGraphQLRequest. rewrite Hi.
  by destruct Hq as [-> | ->].
Qed.

Lemma parseGraphQLRequest_no_input (request : MockedRequest) (h h' : heap) :
  getGraphQLInput request h = (Normal None, h') ->
  parseGraphQLRequest request h = (Normal None, h', []).
Proof. intros Hi. unfold parseGraphQLRequest. by rewrite Hi. Qed.

(** The multipart branch gives up when the decoded [operations] has no
    truthy [query]. *)
Lemma getGraphQLInput_multipart_falsy_query (request : MockedRequest) (h : heap)
    (l : loc) (o : object) (operations : string) :
  method request = "POST" ->
  body request = VRef l ->
  h !! l = Some o ->
  truthy (default VUndefined (oprops o !! "query")) = false ->
  oprops o !! "operations" = Some (VString operations) ->
  operations <> EmptyString ->
  from_option json_truthy false
    (json_get (or_empty_object (jsonParse operations)) "query") = false ->
  getGraphQLInput request h = (Normal None, h).
Proof.
  intros Hm Hb Hl Hq Hops Hopsne Hquery.
  rewrite (getGraphQLInput_POST_falsy_query request h
             (default VUndefined (oprops o !! "query")));
    [|done|rewrite Hb; by apply body_field_object|done].
  unfold POST_without_query. rewrite Hb. unfold bind at 1.
  rewrite (body_field_object l o) by done. rewrite Hops.
  apply String.eqb_neq in Hopsne.
  cbn [default from_option id truthy]. rewrite Hopsne. cbn [negb].
  unfold getMultipartInput. unfold bind at 1. unfold body_props. rewrite Hl.
  unfold bind at 1. rewrite (body_field_object l o) by done.
  by rewrite Hquery.
Qed.

(** C9: an extracted query that is the empty string makes
    [parseGraphQLRequest] return null without logging, exactly as a missing
    query and as no input at all do.  A GET request with an empty [query]
    parameter ends exactly like the same request without that parameter.  A
    POST body whose [query] is empty is handed to the rest of [case 'POST'],
    the [operations] branch; without a truthy [operations] the result is
    null, with the [query] field and without it; and an [operations] text
    whose own query is empty gives null as well. *)
Theorem parseGraphQLRequest_empty_query (request : MockedRequest) (h : heap) :
  (forall input h',
      getGraphQLInput request h = (Normal (Some input), h') ->
      query input = Some EmptyString \/ query input = None ->
      parseGraphQLRequest request h = (Normal None, h', []))
  /\ (forall h',
        getGraphQLInput request h = (Normal None, h') ->
        parseGraphQLRequest request h = (Normal None, h', []))
  /\ (method request = "GET" ->
      searchParams_get "query" (searchParams request) = Some EmptyString ->
      exists h',
        parseGraphQLRequest request h = (Normal None, h', [])
        /\ parseGraphQLRequest (without_query_param request) h
           = (Normal None, h', []))
  /\ (method request = "POST" ->
      body_field (body request) "query" h = (Normal (VString EmptyString), h) ->
      getGraphQLInput request h = POST_without_query request h
      /\ (forall l v,
            body request = VRef l ->
            body_field (body request) "operations" h = (Normal v, h) ->
            truthy v = false ->
            parseGraphQLRequest request h = (Normal None, h, [])
            /\ parseGraphQLRequest request (without_query_field l h)
               = (Normal None, without_query_field l h, [])))
  /\ (forall l o operations parsedOperations,
        method request = "POST" ->
        body request = VRef l ->
        h !! l = Some o ->
        truthy (default VUndefined (oprops o !! "query")) = false ->
        oprops o !! "operations" = Some (VString operations) ->
        operations <> EmptyString ->
        jsonParse operations = Some parsedOperations ->
        json_get parsedOperations "query" = Some (JStr EmptyString) ->
        parseGraphQLRequest request h = (Normal None, h, [])).
Proof.
  split; [|split; [|split; [|split]]].
  - intros input h'. apply parseGraphQLRequest_no_query_text.
  - intros h'. apply parseGraphQLRequest_no_input.
  - intros Hm Hq.
    destruct (getGraphQLInput_GET request h Hm) as (v & fresh & Hg & Hv).
    destruct (getGraphQLInput_GET (without_query_param request) h Hm)
      as (v' & fresh' & Hg' & Hv').
    cbn [without_query_param searchParams] in Hg', Hv'.
    unfold searchParams_get in *.
    rewrite assoc_without_query_other in Hv' by done.
    rewrite assoc_without_query in Hg'.
    rewrite Hv in Hv'. inversion Hv' as [[Hvv Hff]].
    apply app_inv_head in Hff. subst v' fresh'.
    exists (h ++ fresh). split.
    + eapply parseGraphQLRequest_no_query_text; [exact Hg|]. left. simpl. exact Hq.
    + eapply parseGraphQLRequest_no_query_text; [exact Hg'|]. by right.
  - intros Hm Hq.
    assert (Hfall : getGraphQLInput request h = POST_without_query request h).
    { by apply (getGraphQLInput_POST_falsy_query request h (VString EmptyString)). }
    split; [done|]. intros l v Hb Hops Hv. split.
    + apply parseGraphQLRequest_no_input. rewrite Hfall.
      by apply (POST_without_query_no_operations request h v).
    + apply parseGraphQLRequest_no_input.
      rewrite Hb in Hq, Hops. unfold body_field in Hq, Hops.
      unfold without_query_field.
      destruct (h !! l) as [o|] eqn:Hl; [|done].
      inversion Hq as [Hqv]. inversion Hops as [Hopsv].
      assert (Hl' : <[l := Obj (okind o) (delete "query" (oprops o))]> h !! l
                    = Some (Obj (okind o) (delete "query" (oprops o)))).
      { apply list_lookup_insert_eq. by eapply lookup_lt_Some. }
      rewrite (getGraphQLInput_POST_falsy_query request _ VUndefined); [|done| |done].
      * apply (POST_without_query_no_operations request _ v); [|done].
        rewrite Hb. rewrite (body_field_object l _ _ _ Hl'). cbn [oprops].
        rewrite lookup_delete_ne by done. by rewrite <- Hopsv.
      * rewrite Hb. rewrite (body_field_object l _ _ _ Hl'). cbn [oprops].
        by rewrite lookup_delete_eq.
  - intros l o operations parsedOperations Hm Hb Hl Hq Hops Hne Hparse Hquery.
    apply parseGraphQLRequest_no_input.
    apply (getGraphQLInput_multipart_falsy_query request h l o operations);
      try done.
    rewrite Hparse. cbn [or_empty_object].
    destruct parsedOperations; try done.
    cbn [json_truthy]. by rewrite Hquery.
Qed.

(** ** Multipart operations without variables *)

(** C10: when the decoded [operations] of a multipart body has a query and
    no [variables] (or a falsy one), [getGraphQLInput] returns that query
    with a fresh empty object as variables.  The [map] text and the
    remaining body fields do not matter: nothing is looked up in them, so
    nothing is thrown. *)
Theorem getGraphQLInput_multipart_without_variables (request : MockedRequest)
    (h : heap) (l : loc) (o : object) (operations map_field : string)
    (parsedOperations : json) (text : string) :
  method request = "POST" ->
  body request = VRef l ->
  h !! l = Some o ->
  truthy (default VUndefined (oprops o !! "query")) = false ->
  oprops o !! "operations" = Some (VString operations) ->
  operations <> EmptyString ->
  oprops o !! "map" = None \/ oprops o !! "map" = Some (VString map_field) ->
  jsonParse operations = Some parsedOperations ->
  json_get parsedOperations "query" = Some (JStr text) ->
  text <> EmptyString ->
  from_option json_truthy false (json_get parsedOperations "variables") = false ->
  getGraphQLInput request h =
  (Normal (Some {| query := Some text; variables := VRef (List.length h) |}),
   h ++ [Obj KObject ∅]).
Proof.
  intros Hm Hb Hl Hq Hops Hopsne Hmap Hparse Hquery Htext Hvars.
  rewrite (getGraphQLInput_POST_falsy_query request h
             (default VUndefined (oprops o !! "query")));
    [|done|rewrite Hb; by apply body_field_object|done].
  unfold POST_without_query. rewrite Hb. unfold bind at 1.
  rewrite (body_field_object l o) by done. rewrite Hops.
  apply String.eqb_neq in Hopsne, Htext.
  cbn [default from_option id truthy]. rewrite Hopsne. cbn [negb].
  unfold getMultipartInput. unfold bind at 1. unfold body_props. rewrite Hl.
  unfold bind at 1. rewrite (body_field_object l o) by done.
  rewrite Hparse.
  assert (Htruthy : json_truthy parsedOperations = true).
  { destruct parsedOperations; try done. }
  cbn [or_empty_object]. rewrite Htruthy, Hquery.
  cbn [from_option json_truthy]. rewrite Htext. cbn [negb].
  assert (Hmap_text : exists map_text0,
    (if negb (truthy (default VUndefined (oprops o !! "map")))
     then ret EmptyString
     else match default VUndefined (oprops o !! "map") with
          | VString s => ret s
          | _ => beyond
          end) h = (Normal map_text0, h)).
  { destruct Hmap as [-> | ->]; cbn [default from_option id truthy negb].
    - by exists EmptyString.
    - destruct (negb (negb (String.eqb map_field EmptyString))); by eexists. }
  destruct Hmap_text as (map_text0 & Hmap_text).
  rewrite (bind_normal _ _ _ _ _ Hmap_text).
  destruct (json_get parsedOperations "variables") as [j|];
    cbn [from_option] in Hvars; [rewrite Hvars|]; done.
Qed.

(** ** What parseGraphQLRequest does with failures *)

(** C1 (amended): [parseGraphQLRequest] returns a value for every request
    that is not a POST, for every POST whose body holds a non-empty query
    string, and for every POST whose body has neither a truthy query nor a
    truthy [operations].  In general it returns a value whenever extraction
    returned.  An error thrown while the multipart variables are extracted
    is not caught: it leaves [parseGraphQLRequest] as thrown. *)
Theorem parseGraphQLRequest_returns_or_rethrows (request : MockedRequest)
    (h : heap) :
  (method request <> "POST" ->
   exists r h' log, parseGraphQLRequest request h = (Normal r, h', log))
  /\ (forall l o text,
        method request = "POST" ->
        body request = VRef l ->
        h !! l = Some o ->
        oprops o !! "query" = Some (VString text) ->
        text <> EmptyString ->
        exists r log, parseGraphQLRequest request h = (Normal r, h, log))
  /\ (forall q operations,
        method request = "POST" ->
        body_field (body request) "query" h = (Normal q, h) ->
        truthy q = false ->
        body_field (body request) "operations" h = (Normal operations, h) ->
        truthy operations = false ->
        parseGraphQLRequest request h = (Normal None, h, []))
  /\ (forall input h',
        getGraphQLInput request h = (Normal input, h') ->
        exists r log, parseGraphQLRequest request h = (Normal r, h', log))
  /\ (forall e h',
        getGraphQLInput request h = (Throw e, h') ->
        parseGraphQLRequest request h = (Throw e, h', [])).
Proof.
  split; [|split; [|split; [|split]]].
  - intros Hpost. destruct (String.eqb_spec (method request) "GET") as [Hget|Hget].
    + destruct (getGraphQLInput_GET request h Hget) as (v & fresh & Hg & _).
      destruct (parseGraphQLRequest_after_input _ _ _ _ Hg) as (r & log & Hr).
      by exists r, (h ++ fresh), log.
    + exists None, h, []. apply parseGraphQLRequest_no_input.
      by apply getGraphQLInput_other_method.
  - intros l o text Hm Hb Hl Hq Hne.
    eapply parseGraphQLRequest_after_input.
    by eapply getGraphQLInput_POST_query.
  - intros q operations Hm Hq Hqf Hops Hopsf.
    apply parseGraphQLRequest_no_input.
    rewrite (getGraphQLInput_POST_falsy_query request h q) by done.
    by apply (POST_without_query_no_operations request h operations).
  - intros input h'. apply parseGraphQLRequest_after_input.
  - intros e h'. apply parseGraphQLRequest_rethrows.
Qed.

(** ** Walking a dot-path *)

Lemma walk_own (paths segments : list string) (target v : value) (h : heap) :
  lookup_path h target segments = Some v ->
  walk paths segments target h = (Normal v, h).
Proof.
  revert target. induction segments as [|segment rest IH]; intros target Hpath.
  - by inversion Hpath.
  - cbn [lookup_path] in Hpath. cbn [walk].
    destruct target as [| | | | |l]; try done.
    destruct (h !! l) as [o|] eqn:Hl; [|done].
    destruct (oprops o !! segment) as [next|] eqn:Hseg; [|done].
    unfold bind at 1. unfold has_property. rewrite Hl, Hseg. cbn [negb].
    unfold bind at 1. unfold get_property. rewrite Hl, Hseg. by apply IH.
Qed.


Lemma append_cons (c : ascii) (r s : string) :
  String c r +:+ s = String c (r +:+ s).
Proof. reflexivity. Qed.




Lemma assign_dotPath_assigns (operations : value) (files : gmap string value)
    (key dotPath lastPath : string) (paths : list string) (h : heap)
    (l : loc) (o : object) (file : value) :
  split_dotPath dotPath = (lastPath, paths) ->
  lookup_path h operations paths = Some (VRef l) ->
  h !! l = Some o ->
  files !! key = Some file ->
  (oprops o !! lastPath = None -> builtin_member (okind o) lastPath = false) ->
  assign_dotPath operations files key dotPath h
  = (Normal tt, <[l := Obj (okind o) (<[lastPath := file]> (oprops o))]> h).
Proof.
  intros Hsplit Hpath Hl Hfile Hlast. unfold assign_dotPath. rewrite Hsplit.
  rewrite (bind_normal _ _ _ _ _ (walk_own _ _ _ _ _ Hpath)).
  unfold files_get. rewrite Hfile.
  rewrite (bind_normal _ _ h h file) by done.
  unfold set_property. rewrite Hl.
  destruct (oprops o !! lastPath) as [old|]; [done|].
  by rewrite Hlast.
Qed.

(** ** A map key without a file *)

Lemma for_of_throws_at {A} (body : A -> M unit) (pre post : list A) (x : A)
    (h h1 h2 : heap) (e : exn) :
  for_of body pre h = (Normal tt, h1) ->
  body x h1 = (Throw e, h2) ->
  for_of body (pre ++ x :: post) h = (Throw e, h2).
Proof.
  revert h. induction pre as [|y pre IH]; intros h Hpre Hx.
  - inversion Hpre; subst. cbn [app for_of]. unfold bind. by rewrite Hx.
  - cbn [app for_of] in *. unfold bind in *.
    destruct (body y h) as [[[]| |] h0]; try done. by apply IH.
Qed.

(** C2 (amended): when [extractMultipartVariables] comes to a map entry
    whose key is no member of the files, every earlier entry having been
    applied, it throws an [Error] whose message quotes that key.  The store
    is then the one the earlier entries left: what they assigned stays
    assigned.  Only if the entry is the first one has nothing been
    written. *)
Theorem extractMultipartVariables_missing_key (variables : value)
    (map pre post : list (string * list string)) (files : gmap string value)
    (key : string) (pathArray : list string) (h h1 : heap) :
  map = pre ++ (key, pathArray) :: post ->
  files !! key = None ->
  builtin_member KObject key = false ->
  for_of (extract_entry (VRef (List.length h)) files) pre
    (h ++ [Obj KObject {[ "variables" := variables ]}]) = (Normal tt, h1) ->
  extractMultipartVariables variables map files h
  = (Throw (Error ("Given files do not have a key '" +:+ key +:+ "' .")), h1)
  /\ (pre = [] -> h1 = h ++ [Obj KObject {[ "variables" := variables ]}]).
Proof.
  intros -> Hkey Hbuiltin Hpre. split.
  - unfold extractMultipartVariables. unfold bind at 1. unfold new.
    unfold bind at 1.
    rewrite (for_of_throws_at _ pre post (key, pathArray) _ h1 h1
               (Error (missing_key_message key)) Hpre); [done|].
    unfold extract_entry, key_in_files. by rewrite Hkey, Hbuiltin.
  - intros ->. by inversion Hpre.
Qed.

(** ** The multipart example *)

Lemma lookup_snoc_length {A} (l : list A) (x : A) (r : list A) :
  (l ++ x :: r) !! List.length l = Some x.
Proof. by apply list_lookup_middle. Qed.

Lemma lookup_snoc_succ {A} (l : list A) (x y : A) (r : list A) :
  (l ++ x :: y :: r) !! S (List.length l) = Some y.
Proof.
  change (l ++ x :: y :: r) with (l ++ [x] ++ y :: r). rewrite app_assoc.
  apply list_lookup_middle. rewrite length_app. simpl. lia.
Qed.

Lemma insert_snoc_length {A} (l : list A) (x y : A) (r : list A) :
  <[List.length l := y]> (l ++ x :: r) = l ++ y :: r.
Proof.
  rewrite <- (Nat.add_0_r (List.length l)). by rewrite insert_app_r.
Qed.

(** C4: for a multipart POST body whose [operations] is the text
    {"query":"query Test{x}","variables":{"file":null}}, whose [map] is the
    text {"0":["variables.file"]} and which has a part named 0,
    [getGraphQLInput] returns the query text and a reference to the decoded
    variables object; in that object [file] now holds the part named 0 and
    there is no other entry, as before. *)
Theorem getGraphQLInput_multipart_file (request : MockedRequest) (h : heap)
    (l : loc) (o : object) (file : value) :
  method request = "POST" ->
  body request = VRef l ->
  h !! l = Some o ->
  truthy (default VUndefined (oprops o !! "query")) = false ->
  oprops o !! "operations" = Some (VString operations_text) ->
  oprops o !! "map" = Some (VString map_text) ->
  oprops o !! "0" = Some file ->
  jsonParse operations_text
  = Some (JObj [("query", JStr "query Test{x}");
                ("variables", JObj [("file", JNull)])]) ->
  jsonParse map_text = Some (JObj [("0", JArr [JStr "variables.file"])]) ->
  getGraphQLInput request h =
  (Normal (Some {| query := Some "query Test{x}";
                   variables := VRef (List.length h) |}),
   h ++ [Obj KObject {[ "file" := file ]};
         Obj KObject {[ "variables" := VRef (List.length h) ]}]).
Proof.
  intros Hm Hb Hl Hq Hops Hmap Hfile Hparse Hparse_map.
  set (n := List.length h).
  set (vo := Obj KObject {[ "file" := VNull ]}).
  set (wo := Obj KObject {[ "variables" := VRef n ]}).
  set (files := delete "operations" (delete "map" (oprops o))).
  assert (Hfiles : files !! "0" = Some file).
  { unfold files. by rewrite !lookup_delete_ne. }
  assert (Hassign :
    assign_dotPath (VRef (S n)) files "0" "variables.file" (h ++ [vo; wo])
    = (Normal tt, h ++ [Obj KObject {[ "file" := file ]}; wo])).
  { rewrite (assign_dotPath_assigns (VRef (S n)) files "0" "variables.file"
               "file" ["variables"] _ n vo file eq_refl).
    - unfold n. rewrite insert_snoc_length. cbn [okind oprops vo].
      by rewrite insert_singleton_eq.
    - cbn [lookup_path]. unfold n. rewrite lookup_snoc_succ. cbn [oprops wo].
      by rewrite lookup_singleton_eq.
    - apply lookup_snoc_length.
    - exact Hfiles.
    - cbn [oprops vo]. by rewrite lookup_singleton_eq. }
  assert (Hextract :
    extractMultipartVariables (VRef n) [("0", ["variables.file"])] files (h ++ [vo])
    = (Normal (VRef n), h ++ [Obj KObject {[ "file" := file ]}; wo])).
  { unfold extractMultipartVariables.
    rewrite (bind_normal _ _ _ ((h ++ [vo]) ++ [wo]) (VRef (S n))).
    2: { unfold new. rewrite length_app. cbn [List.length].
         by rewrite Nat.add_1_r. }
    rewrite <- app_assoc. cbn [app].
    rewrite (bind_normal _ _ _ (h ++ [Obj KObject {[ "file" := file ]}; wo]) tt).
    2: { cbn [for_of]. unfold extract_entry, key_in_files. rewrite Hfiles.
         cbn [negb for_of].
         rewrite (bind_normal _ _ _ (h ++ [Obj KObject {[ "file" := file ]}; wo]) tt);
           [done|].
         by rewrite (bind_normal _ _ _ _ _ Hassign). }
    unfold get_property. unfold n at 1. rewrite lookup_snoc_succ. cbn [oprops wo].
    by rewrite lookup_singleton_eq. }
  rewrite (getGraphQLInput_POST_falsy_query request h
             (default VUndefined (oprops o !! "query")));
    [|done|rewrite Hb; by apply body_field_object|done].
  unfold POST_without_query. rewrite Hb.
  rewrite (bind_normal _ _ _ _ _ (body_field_object l o "operations" h Hl)).
  rewrite Hops.
  change (truthy (default VUndefined (Some (VString operations_text)))) with true.
  cbn [default from_option id].
  unfold getMultipartInput.
  rewrite (bind_normal _ _ h h (oprops o)) by (unfold body_props; by rewrite Hl).
  rewrite (bind_normal _ _ _ _ _ (body_field_object l o "map" h Hl)).
  rewrite Hparse, Hmap. fold files.
  change (truthy (default VUndefined (Some (VString map_text)))) with true.
  cbn [default from_option id negb or_empty_object json_truthy json_get].
  change (assoc "query" _) with (Some (JStr "query Test{x}")).
  change (assoc "variables" _) with (Some (JObj [("file", JNull)])).
  cbn [from_option json_truthy negb].
  change (negb (String.eqb "query Test{x}" EmptyString)) with true. cbn [negb].
  rewrite (bind_normal _ _ h h map_text) by done.
  rewrite Hparse_map.
  cbn [or_empty_object json_truthy].
  change (Object_entries _) with (Some [("0", ["variables.file"])]).
  rewrite (bind_normal _ _ h (h ++ [Obj KObject {[ "file" := file ]}; wo]) (VRef n)).
  2: { rewrite (bind_normal _ _ h (h ++ [vo]) (VRef n)) by done.
       exact Hextract. }
  done.
Qed.

End Properties.

(** ** The response patcher *)

Lemma header_values_app (name : string) (hs1 hs2 : list (string * string)) :
  Patcher.header_values name (hs1 ++ hs2)
  = Patcher.header_values name hs1 ++ Patcher.header_values name hs2.
Proof.
  unfold Patcher.header_values. by rewrite List.filter_app, List.map_app.
Qed.

Lemma header_values_absent (name : string) (hs : list (string * string)) :
  Patcher.has_header name hs = false -> Patcher.header_values name hs = [].
Proof.
  unfold Patcher.has_header, Patcher.header_values.
  induction hs as [|[k v] hs IH]; [done|]. cbn [existsb List.filter fst].
  destruct (String.eqb k name); [done|]. cbn [orb]. exact IH.
Qed.

Lemma header_values_kept (name : string) (mask hs : list (string * string)) :
  Patcher.has_header name mask = false ->
  Patcher.header_values name
    (List.filter (fun header => negb (Patcher.has_header (fst header) mask)) hs)
  = Patcher.header_values name hs.
Proof.
  intros Hmask. unfold Patcher.header_values.
  induction hs as [|[k v] hs IH]; [done|]. cbn [List.filter fst].
  destruct (String.eqb_spec k name) as [->|Hk].
  - rewrite Hmask. cbn [negb List.filter fst]. rewrite String.eqb_refl.
    cbn [List.map snd]. by rewrite IH.
  - destruct (negb (Patcher.has_header k mask)); [|exact IH].
    cbn [List.filter fst]. apply String.eqb_neq in Hk. rewrite Hk. exact IH.
Qed.

Lemma header_values_replaced (name : string) (mask hs : list (string * string)) :
  Patcher.has_header name mask = true ->
  Patcher.header_values name
    (List.filter (fun header => negb (Patcher.has_header (fst header) mask)) hs)
  = [].
Proof.
  intros Hmask. unfold Patcher.header_values.
  induction hs as [|[k v] hs IH]; [done|]. cbn [List.filter fst].
  destruct (Patcher.has_header k mask) eqn:Hk; cbn [negb]; [exact IH|].
  cbn [List.filter fst].
  destruct (String.eqb_spec k name) as [->|_]; [congruence|exact IH].
Qed.

(** C8: the patched response has the resolved response's body when there is
    one and the original body otherwise.  A header name that occurs in the
    resolved response has exactly the resolved values in the patched
    response; every other name has exactly its original values.  For the
    resolved response with header x-custom: A and body {"id":101} and the
    original with header x-powered-by: orig and body {"other":true}, the
    result has both headers and the body {"id":101}. *)
Theorem patchResponse_merges (resolved original : Patcher.Response) :
  let patched := Patcher.patchResponse resolved (Some original) in
  (forall b, Patcher.body resolved = Some b -> Patcher.body patched = Some b)
  /\ (Patcher.body resolved = None ->
      Patcher.body patched = Patcher.body original)
  /\ (forall name,
        Patcher.has_header name (Patcher.headers resolved) = true ->
        Patcher.header_values name (Patcher.headers patched)
        = Patcher.header_values name (Patcher.headers resolved))
  /\ (forall name,
        Patcher.has_header name (Patcher.headers resolved) = false ->
        Patcher.header_values name (Patcher.headers patched)
        = Patcher.header_values name (Patcher.headers original))
  /\ Patcher.patchResponse
       {| Patcher.status := 200;
          Patcher.headers := [("x-custom", "A")];
          Patcher.body := Some (dq "{'id':101}") |}
       (Some {| Patcher.status := 200;
                Patcher.headers := [("x-powered-by", "orig")];
                Patcher.body := Some (dq "{'other':true}") |})
     = {| Patcher.status := 200;
          Patcher.headers := [("x-custom", "A"); ("x-powered-by", "orig")];
          Patcher.body := Some (dq "{'id':101}") |}.
Proof.
  cbn zeta. split; [|split; [|split; [|split]]].
  - intros b Hb. cbn [Patcher.patchResponse Patcher.body]. by rewrite Hb.
  - intros Hb. cbn [Patcher.patchResponse Patcher.body]. by rewrite Hb.
  - intros name Hname. cbn [Patcher.patchResponse Patcher.headers].
    rewrite header_values_app, header_values_replaced by done.
    by rewrite app_nil_r.
  - intros name Hname. cbn [Patcher.patchResponse Patcher.headers].
    rewrite header_values_app, header_values_kept by done.
    by rewrite header_values_absent.
  - reflexivity.
Qed.

(** * The definitions at work *)

Example split_dotPath_three : split_dotPath "variables.input.file" = ("file", ["variables"; "input"]).
Proof. reflexivity. Qed.

Example split_dotPath_one : split_dotPath "file" = ("file", []).
Proof. reflexivity. Qed.

Example split_dotPath_trailing_dot : split_dotPath "variables." = (EmptyString, ["variables"]).
Proof. reflexivity. Qed.

(** The usual upload of several files: [variables.files] is an array and the
    paths end in its indices. *)
Example extract_into_array :
  extractMultipartVariables (H := sample_externals) (VRef 1)
    [("0", ["variables.files.0"]); ("1", ["variables.files.1"])]
    (<["0" := VRef 2]> {[ "1" := VRef 3 ]})
    [ Obj KArray (index_props 0 [VNull; VNull]);
      Obj KObject {[ "files" := VRef 0 ]};
      Obj KFile ∅; Obj KFile ∅ ]
  = (Normal (VRef 1),
     [ Obj KArray (index_props 0 [VRef 2; VRef 3]);
       Obj KObject {[ "files" := VRef 0 ]};
       Obj KFile ∅; Obj KFile ∅;
       Obj KObject {[ "variables" := VRef 1 ]} ]).
Proof. vm_compute. reflexivity. Qed.

(** A path that goes through [null]: the segment is there, the [in] test on
    the next one is a [TypeError]. *)
Example assign_through_null :
  assign_dotPath (H := sample_externals) (VRef 1) (only_part_0 (VRef 2)) "0"
    "variables.file.name.x" wrapped_variables_heap
  = (Throw TypeError, wrapped_variables_heap).
Proof. reflexivity. Qed.

(** A path whose last step starts at [null]: the assignment is a
    [TypeError]. *)
Example assign_onto_null :
  assign_dotPath (H := sample_externals) (VRef 1) (only_part_0 (VRef 2)) "0"
    "variables.file.x" wrapped_variables_heap
  = (Throw TypeError, wrapped_variables_heap).
Proof. reflexivity. Qed.

(** A path through a member that every object inherits leaves the data. *)
Example assign_through_inherited :
  assign_dotPath (H := sample_externals) (VRef 1) (only_part_0 (VRef 2)) "0"
    "variables.toString.x" wrapped_variables_heap
  = (Beyond, wrapped_variables_heap).
Proof. reflexivity. Qed.

(** A single segment is assigned on the wrapper; the variables stay. *)
Example assign_single_segment :
  extractMultipartVariables (H := sample_externals) (VRef 0) [("0", ["file"])]
    (only_part_0 (VRef 1)) two_variables_heap
  = (Normal (VRef 0),
     two_variables_heap ++
     [ Obj KObject (<["file" := VRef 1]> {[ "variables" := VRef 0 ]}) ]).
Proof. vm_compute. reflexivity. Qed.

(** The multipart example, through [parseGraphQLRequest]. *)
Example parse_multipart_example :
  parseGraphQLRequest (H := sample_externals) (POST_to (VRef 1)) multipart_heap
  = (Normal (Some {| req_operationType := Some op_query;
                     req_operationName := Some "Test";
                     req_variables := VRef 2 |}),
     multipart_heap ++
     [ Obj KObject {[ "file" := VRef 0 ]};
       Obj KObject {[ "variables" := VRef 2 ]} ],
     []).
Proof. vm_compute. reflexivity. Qed.

(** A GET request with variables. *)
Example parse_GET_example :
  parseGraphQLRequest (H := sample_externals)
    {| method := "GET";
       searchParams := [("query", "{ __typename }"); ("variables", dq "{'a':1}")];
       body := VUndefined |} []
  = (Normal (Some {| req_operationType := Some op_query;
                     req_operationName := None;
                     req_variables := VRef 0 |}),
     [Obj KObject {[ "a" := VNumber 1 ]}], []).
Proof. vm_compute. reflexivity. Qed.

(** A GET request without a [variables] parameter: the variables are
    [undefined]. *)
Example parse_GET_without_variables :
  parseGraphQLRequest (H := sample_externals)
    {| method := "GET"; searchParams := [("query", "{ __typename }")];
       body := VUndefined |} []
  = (Normal (Some {| req_operationType := Some op_query;
                     req_operationName := None;
                     req_variables := VUndefined |}),
     [], []).
Proof. reflexivity. Qed.

(** * The theorems at concrete inputs *)

Lemma parseQuery_first_operation_witness :
  (parse (Externals := sample_externals) "mutation CreatePost { id }"
   = inr [OperationDefinition op_mutation (Some "CreatePost")]
   /\ parseQuery (H := sample_externals) "mutation CreatePost { id }"
      = inr {| operationType := Some op_mutation;
               operationName := Some "CreatePost" |})
  /\ parseQuery (H := sample_externals) "{ __typename }"
     = inr {| operationType := Some op_query; operationName := None |}
  /\ parseQuery (H := sample_externals) "fragment F on T { id }"
     = inr {| operationType := None; operationName := None |}.
Proof.
  split; [split; [reflexivity|]|split].
  - apply (proj1 (proj2 (parseQuery_first_operation (H := sample_externals)
                           "mutation CreatePost { id }" _ eq_refl)) []).
    reflexivity.
  - apply (proj1 (proj2 (proj2 (parseQuery_first_operation (H := sample_externals)
                                  "{ __typename }" _ eq_refl))) []).
    reflexivity.
  - apply (proj2 (proj2 (proj2 (parseQuery_first_operation (H := sample_externals)
                                  "fragment F on T { id }" _ eq_refl)))).
    reflexivity.
Defined.

Lemma getGraphQLInput_POST_query_unmodified_witness :
  getGraphQLInput (H := sample_externals) (POST_to (VRef 0)) json_body_heap
  = (Normal (Some {| query := Some "{x}"; variables := VRef 1 |}),
     json_body_heap).
Proof.
  exact (getGraphQLInput_POST_query_unmodified (H := sample_externals)
           (POST_to (VRef 0)) json_body_heap 0
           (Obj KObject (<["query" := VString "{x}"]> {[ "variables" := VRef 1 ]}))
           "{x}" eq_refl eq_refl eq_refl eq_refl ltac:(discriminate)).
Defined.

(** C5, as stated, fails for an empty query: the body has the form
    {query, variables}, and nothing is extracted. *)
Lemma getGraphQLInput_POST_empty_query_counterexample :
  (oprops <$> empty_query_heap !! 0)
  = Some (<["query" := VString EmptyString]> {[ "variables" := VRef 1 ]})
  /\ getGraphQLInput (H := sample_externals) (POST_to (VRef 0)) empty_query_heap
     = (Normal None, empty_query_heap)
  /\ getGraphQLInput (H := sample_externals) (POST_to (VRef 0)) empty_query_heap
     <> (Normal (Some {| query := Some EmptyString; variables := VRef 1 |}),
         empty_query_heap).
Proof.
  split; [reflexivity|]. split; [reflexivity|].
  intros Heq. vm_compute in Heq. discriminate Heq.
Qed.

Lemma parseGraphQLRequest_empty_query_witness :
  parseGraphQLRequest (H := sample_externals)
    {| method := "GET"; searchParams := [("query", EmptyString)];
       body := VUndefined |} []
  = (Normal None, [], [])
  /\ parseGraphQLRequest (H := sample_externals) (POST_to (VRef 0)) empty_query_heap
     = (Normal None, empty_query_heap, []).
Proof.
  split.
  - destruct (proj1 (proj2 (proj2 (parseGraphQLRequest_empty_query
                                     (H := sample_externals)
                                     {| method := "GET";
                                        searchParams := [("query", EmptyString)];
                                        body := VUndefined |} [])))
                eq_refl eq_refl) as (h' & Hwith & Hwithout).
    vm_compute in Hwithout. injection Hwithout as <-. exact Hwith.
  - apply (proj2 (proj1 (proj2 (proj2 (proj2 (parseGraphQLRequest_empty_query
                                                (H := sample_externals)
                                                (POST_to (VRef 0)) empty_query_heap))))
                          eq_refl eq_refl) 0 VUndefined eq_refl eq_refl eq_refl).
Defined.

Lemma getGraphQLInput_multipart_without_variables_witness :
  getGraphQLInput (H := sample_externals) (POST_to (VRef 0)) no_variables_heap
  = (Normal (Some {| query := Some "query Test{x}"; variables := VRef 1 |}),
     no_variables_heap ++ [Obj KObject ∅]).
Proof.
  apply (getGraphQLInput_multipart_without_variables (H := sample_externals)
           (POST_to (VRef 0)) no_variables_heap 0
           (Obj KObject (<["operations" := VString (dq "{'query':'query Test{x}'}")]>
                           {[ "map" := VString map_text ]}))
           (dq "{'query':'query Test{x}'}") map_text
           (JObj [("query", JStr "query Test{x}")]) "query Test{x}");
    try reflexivity; try discriminate.
  right. reflexivity.
Defined.

(** C1, as stated, fails for a multipart body whose map names a part that
    is not there, and for one whose map leads through a property the
    variables do not have: the error leaves [parseGraphQLRequest] as
    thrown. *)
Lemma parseGraphQLRequest_throws_counterexample :
  (parseGraphQLRequest (H := sample_externals) (POST_to (VRef 0)) missing_file_heap).1.1
  = Throw (Error "Given files do not have a key '0' .")
  /\ (parseGraphQLRequest (H := sample_externals) (POST_to (VRef 1))
        missing_segment_heap).1.1
     = Throw (Error "Property 'variables,nested' is not in operations.").
Proof. split; reflexivity. Qed.

Lemma parseGraphQLRequest_returns_or_rethrows_witness :
  (exists r h' log,
      parseGraphQLRequest (H := sample_externals)
        {| method := "GET"; searchParams := [("query", "{x}")];
           body := VUndefined |} []
      = (Normal r, h', log))
  /\ parseGraphQLRequest (H := sample_externals) (POST_to (VRef 0)) empty_query_heap
     = (Normal None, empty_query_heap, [])
  /\ exists h',
      parseGraphQLRequest (H := sample_externals) (POST_to (VRef 0)) missing_file_heap
      = (Throw (Error "Given files do not have a key '0' ."), h', []).
Proof.
  split; [|split].
  - apply (proj1 (parseGraphQLRequest_returns_or_rethrows (H := sample_externals)
                    {| method := "GET"; searchParams := [("query", "{x}")];
                       body := VUndefined |} [])).
    discriminate.
  - apply (proj1 (proj2 (proj2 (parseGraphQLRequest_returns_or_rethrows
                                  (H := sample_externals)
                                  (POST_to (VRef 0)) empty_query_heap)))
             (VString EmptyString) VUndefined eq_refl eq_refl eq_refl eq_refl eq_refl).
  - eexists.
    apply (proj2 (proj2 (proj2 (proj2 (parseGraphQLRequest_returns_or_rethrows
                                         (H := sample_externals)
                                         (POST_to (VRef 0)) missing_file_heap))))).
    vm_compute. reflexivity.
Defined.

(** C2, as stated, fails in two ways.  When the decoded operations has no
    variables, a map that names a part that is not there is no failure at
    all.  And when an earlier entry has been applied, the writes stay: the
    part named 1 is missing, the error names it, and [a] already holds the
    file; the same happens inside [getGraphQLInput], in the decoded
    variables (object 2). *)
Lemma extractMultipartVariables_partial_counterexample :
  getGraphQLInput (H := sample_externals) (POST_to (VRef 0)) no_variables_heap
  = (Normal (Some {| query := Some "query Test{x}"; variables := VRef 1 |}),
     no_variables_heap ++ [Obj KObject ∅])
  /\ two_variables_heap !! 0
     = Some (Obj KObject (<["a" := VNull]> {[ "b" := VNull ]}))
  /\ extractMultipartVariables (H := sample_externals) (VRef 0) two_entries_map
       (only_part_0 (VRef 1)) two_variables_heap
     = (Throw (Error "Given files do not have a key '1' ."),
        [ Obj KObject (<["a" := VRef 1]> {[ "b" := VNull ]}); Obj KFile ∅;
          Obj KObject {[ "variables" := VRef 0 ]} ])
  /\ getGraphQLInput (H := sample_externals) (POST_to (VRef 1))
       second_file_missing_heap
     = (Throw (Error "Given files do not have a key '1' ."),
        second_file_missing_heap ++
        [ Obj KObject (<["a" := VRef 0]> {[ "b" := VNull ]});
          Obj KObject {[ "variables" := VRef 2 ]} ]).
Proof.
  split; [vm_compute; reflexivity|]. split; [reflexivity|].
  split; vm_compute; reflexivity.
Qed.

Lemma extractMultipartVariables_missing_key_witness :
  extractMultipartVariables (H := sample_externals) (VRef 0) two_entries_map
    (only_part_0 (VRef 1)) two_variables_heap
  = (Throw (Error "Given files do not have a key '1' ."),
     [ Obj KObject (<["a" := VRef 1]> {[ "b" := VNull ]}); Obj KFile ∅;
       Obj KObject {[ "variables" := VRef 0 ]} ]).
Proof.
  apply (proj1 (extractMultipartVariables_missing_key (H := sample_externals)
                  (VRef 0) two_entries_map [("0", ["variables.a"])] []
                  (only_part_0 (VRef 1)) "1" ["variables.b"] two_variables_heap
                  [ Obj KObject (<["a" := VRef 1]> {[ "b" := VNull ]}); Obj KFile ∅;
                    Obj KObject {[ "variables" := VRef 0 ]} ]
                  eq_refl ltac:(reflexivity) ltac:(reflexivity)
                  ltac:(vm_compute; reflexivity))).
Defined.

Lemma getGraphQLInput_multipart_file_witness :
  getGraphQLInput (H := sample_externals) (POST_to (VRef 1)) multipart_heap
  = (Normal (Some {| query := Some "query Test{x}"; variables := VRef 2 |}),
     multipart_heap ++
     [ Obj KObject {[ "file" := VRef 0 ]};
       Obj KObject {[ "variables" := VRef 2 ]} ]).
Proof.
  exact (getGraphQLInput_multipart_file (H := sample_externals)
           (POST_to (VRef 1)) multipart_heap 1
           (Obj KObject (<["operations" := VString operations_text]>
                           (<["map" := VString map_text]> {[ "0" := VRef 0 ]})))
           (VRef 0) eq_refl eq_refl eq_refl eq_refl eq_refl eq_refl eq_refl
           eq_refl eq_refl).
Defined.

Lemma patchResponse_merges_witness :
  Patcher.body
    (Patcher.patchResponse
       {| Patcher.status := 200; Patcher.headers := [("x-custom", "A")];
          Patcher.body := None |}
       (Some {| Patcher.status := 200;
                Patcher.headers := [("x-custom", "B"); ("x-powered-by", "orig")];
                Patcher.body := Some "original" |}))
  = Some "original"
  /\ Patcher.header_values "x-custom"
       (Patcher.headers
          (Patcher.patchResponse
             {| Patcher.status := 200; Patcher.headers := [("x-custom", "A")];
                Patcher.body := None |}
             (Some {| Patcher.status := 200;
                      Patcher.headers := [("x-custom", "B"); ("x-powered-by", "orig")];
                      Patcher.body := Some "original" |})))
     = ["A"]
  /\ Patcher.header_values "x-powered-by"
       (Patcher.headers
          (Patcher.patchResponse
             {| Patcher.status := 200; Patcher.headers := [("x-custom", "A")];
                Patcher.body := None |}
             (Some {| Patcher.status := 200;
                      Patcher.headers := [("x-custom", "B"); ("x-powered-by", "orig")];
                      Patcher.body := Some "original" |})))
     = ["orig"].
Proof.
  pose proof (patchResponse_merges
                {| Patcher.status := 200; Patcher.headers := [("x-custom", "A")];
                   Patcher.body := None |}
                {| Patcher.status := 200;
                   Patcher.headers := [("x-custom", "B"); ("x-powered-by", "orig")];
                   Patcher.body := Some "original" |})
    as (_ & Hbody & Hresolved & Horiginal & _).
  split; [|split].
  - exact (Hbody eq_refl).
  - exact (Hresolved "x-custom" eq_refl).
  - exact (Horiginal "x-powered-by" eq_refl).
Defined.

(** * Further properties of the code *)

Section Further.
Context `{Externals}.

(** ** Splitting a dot-path *)

Lemma string_split_nonempty (sep : ascii) (s : string) : string_split sep s <> [].
Proof.
  induction s as [|c r IH]; cbn [string_split]; [done|].
  destruct (Ascii.eqb c sep); [done|]. by destruct (string_split sep r).
Qed.

Lemma string_split_concat (sep : ascii) (s : string) :
  String.concat (String sep EmptyString) (string_split sep s) = s.
Proof.
  induction s as [|c r IH]; cbn [string_split]; [done|].
  pose proof (string_split_nonempty sep r) as Hne.
  destruct (Ascii.eqb_spec c sep) as [->|Hc].
  - destruct (string_split sep r) as [|x xs]; [done|].
    change (String.concat (String sep EmptyString) (EmptyString :: x :: xs))
      with (String sep (String.concat (String sep EmptyString) (x :: xs))).
    by rewrite IH.
  - destruct (string_split sep r) as [|x xs]; [done|].
    destruct xs as [|y ys].
    + cbn [String.concat] in *. by rewrite IH.
    + change (String.concat (String sep EmptyString) (String c x :: y :: ys))
        with (String c (String.concat (String sep EmptyString) (x :: y :: ys))).
      by rewrite IH.
Qed.

Lemma string_split_no_dot (s segment : string) :
  segment ∈ string_split "." s -> no_dot segment = true.
Proof.
  revert segment. induction s as [|c r IH]; intros segment; cbn [string_split].
  - intros Hin. apply list_elem_of_singleton in Hin. by subst.
  - destruct (Ascii.eqb c ".") eqn:Hc.
    + intros Hin. apply elem_of_cons in Hin as [->|Hin]; [done|]. by apply IH.
    + pose proof (string_split_nonempty "." r) as Hne.
      destruct (string_split "." r) as [|x xs]; [done|].
      intros Hin. apply elem_of_cons in Hin as [->|Hin].
      * cbn [no_dot]. rewrite Hc. cbn [negb andb]. apply IH. by left.
      * apply IH. by right.
Qed.

Lemma split_dotPath_pieces (dotPath : string) :
  string_split "." dotPath = (split_dotPath dotPath).2 ++ [(split_dotPath dotPath).1].
Proof.
  unfold split_dotPath.
  pose proof (string_split_nonempty "." dotPath) as Hne.
  destruct (rev (string_split "." dotPath)) as [|lastPath reversedPaths] eqn:Hrev.
  - apply (f_equal (@rev string)) in Hrev. rewrite rev_involutive in Hrev. done.
  - apply (f_equal (@rev string)) in Hrev. rewrite rev_involutive in Hrev.
    by rewrite Hrev.
Qed.

(** X1: the two reversals of [extractMultipartVariables] give the pieces of
    the dot-path in their order, the last one apart: the segments before the
    last followed by the last are the pieces between the dots, joining them
    with dots gives the dot-path back, and no piece contains a dot. *)
Theorem split_dotPath_round_trip (dotPath : string) :
  string_split "." dotPath
  = (split_dotPath dotPath).2 ++ [(split_dotPath dotPath).1]
  /\ String.concat "." ((split_dotPath dotPath).2 ++ [(split_dotPath dotPath).1])
     = dotPath
  /\ forall segment,
       segment ∈ (split_dotPath dotPath).2 ++ [(split_dotPath dotPath).1] ->
       no_dot segment = true.
Proof.
  split; [apply split_dotPath_pieces|]. split.
  - rewrite <- split_dotPath_pieces. apply (string_split_concat ".").
  - intros segment. rewrite <- split_dotPath_pieces. apply string_split_no_dot.
Qed.

(** ** One dot-path, at most one write *)

Lemma walk_inv (paths remaining : list string) (target : value) (h h' : heap)
    (c : completion value) :
  walk paths remaining target h = (c, h') ->
  h' = h /\ forall v, c = Normal v -> lookup_path h target remaining = Some v.
Proof.
  revert target. induction remaining as [|path rest IH]; intros target Hwalk.
  - inversion Hwalk; subst. split; [done|]. intros v Hv. by inversion Hv.
  - cbn [walk] in Hwalk. unfold bind at 1 in Hwalk. unfold has_property in Hwalk.
    cbn [lookup_path].
    destruct target as [| | | | |l]; try (inversion Hwalk; by subst).
    destruct (h !! l) as [o|] eqn:Hl; [|inversion Hwalk; by subst].
    destruct (oprops o !! path) as [next|] eqn:Hpath.
    + cbn [negb] in Hwalk. unfold bind at 1 in Hwalk. unfold get_property in Hwalk.
      rewrite Hl, Hpath in Hwalk. by apply IH.
    + destruct (builtin_member (okind o) path) eqn:Hb; cbn [negb] in Hwalk.
      * unfold bind at 1 in Hwalk. unfold get_property in Hwalk.
        rewrite Hl, Hpath, Hb in Hwalk. inversion Hwalk; by subst.
      * inversion Hwalk; by subst.
Qed.

Lemma files_get_inv (files : gmap string value) (key : string) (h h' : heap)
    (c : completion value) :
  files_get files key h = (c, h') ->
  h' = h /\ forall v, c = Normal v -> v = default VUndefined (files !! key).
Proof.
  unfold files_get. destruct (files !! key) as [v0|].
  - intros Hg. inversion Hg; subst. split; [done|]. intros v Hv. by inversion Hv.
  - destruct (builtin_member KObject key); intros Hg; inversion Hg; subst;
      (split; [done|]); intros v Hv; by inversion Hv.
Qed.

Lemma assign_dotPath_cases (operations : value)
    (files : gmap string value) (key dotPath : string) (h : heap) :
  let r := assign_dotPath operations files key dotPath h in
  (r.1 <> Normal tt /\ r.2 = h)
  \/ (r.1 = Normal tt /\
      exists l o,
        lookup_path h operations (split_dotPath dotPath).2 = Some (VRef l)
        /\ h !! l = Some o
        /\ r.2 = <[l := Obj (okind o)
                          (<[(split_dotPath dotPath).1 :=
                               default VUndefined (files !! key)]> (oprops o))]> h).
Proof.
  cbn zeta.
  destruct (assign_dotPath operations files key dotPath h) as [c h'] eqn:Hr.
  cbn [fst snd]. unfold assign_dotPath in Hr.
  destruct (split_dotPath dotPath) as [lastPath paths]. cbn [fst snd].
  unfold bind at 1 in Hr.
  destruct (walk paths paths operations h) as [cw h1] eqn:Hwalk.
  destruct (walk_inv _ _ _ _ _ _ Hwalk) as [-> Hpath].
  destruct cw as [target| |]; [|inversion Hr; subst; by left..].
  specialize (Hpath target eq_refl).
  unfold bind at 1 in Hr.
  destruct (files_get files key h) as [cf h1] eqn:Hfile.
  destruct (files_get_inv _ _ _ _ _ Hfile) as [-> Hv].
  destruct cf as [file| |]; [|inversion Hr; subst; by left..].
  rewrite (Hv file eq_refl) in Hr. unfold set_property in Hr.
  destruct target as [| | | | |l]; try (inversion Hr; subst; by left).
  destruct (h !! l) as [o|] eqn:Hl; [|inversion Hr; subst; by left].
  destruct (oprops o !! lastPath) as [old|].
  - inversion Hr; subst. right. split; [done|]. by exists l, o.
  - destruct (builtin_member (okind o) lastPath); inversion Hr; subst; [by left|].
    right. split; [done|]. by exists l, o.
Qed.

(** ** What extraction keeps *)

Lemma object_extends_refl (o : object) : object_extends o o.
Proof. by split. Qed.

Lemma store_extends_refl (h : heap) : store_extends h h.
Proof. intros l o Hl. exists o. split; [done|apply object_extends_refl]. Qed.

Lemma store_extends_trans (h1 h2 h3 : heap) :
  store_extends h1 h2 -> store_extends h2 h3 -> store_extends h1 h3.
Proof.
  intros H12 H23 l o Hl.
  destruct (H12 l o Hl) as (o2 & Hl2 & [Hk2 Hp2]).
  destruct (H23 l o2 Hl2) as (o3 & Hl3 & [Hk3 Hp3]).
  exists o3. split; [done|]. split; [congruence|]. intros name Hname. auto.
Qed.

Lemma store_extends_write (h : heap) (l : loc) (o : object) (name : string)
    (v : value) :
  h !! l = Some o ->
  store_extends h (<[l := Obj (okind o) (<[name := v]> (oprops o))]> h).
Proof.
  intros Hl l0 o0 Hl0. destruct (decide (l0 = l)) as [->|Hne].
  - rewrite Hl in Hl0. inversion Hl0; subst o0.
    eexists. split.
    + apply list_lookup_insert_eq. by eapply lookup_lt_Some.
    + split; [done|]. intros name0 Hname0. cbn [oprops].
      destruct (decide (name0 = name)) as [->|Hn].
      * rewrite lookup_insert_eq. by eexists.
      * by rewrite lookup_insert_ne.
  - exists o0. split; [|apply object_extends_refl].
    by rewrite list_lookup_insert_ne.
Qed.

Lemma store_extends_new (h : heap) (o : object) : store_extends h (h ++ [o]).
Proof.
  intros l o0 Hl. exists o0. split; [|apply object_extends_refl].
  by apply lookup_app_l_Some.
Qed.

(** A computation that keeps the number of objects and extends the store. *)
Lemma assign_dotPath_keeps (operations : value) (files : gmap string value)
    (key dotPath : string) (h h' : heap) (c : completion unit) :
  assign_dotPath operations files key dotPath h = (c, h') ->
  List.length h' = List.length h /\ store_extends h h'.
Proof.
  intros Hassign.
  destruct (assign_dotPath_cases operations files key dotPath h)
    as [[_ Hsame]|[_ (l & o & _ & Hl & Hwrite)]];
    rewrite Hassign in *; cbn [snd] in *; subst h'.
  - split; [done|apply store_extends_refl].
  - split; [by rewrite length_insert|by apply store_extends_write].
Qed.

Lemma for_of_keeps {A} (body : A -> M unit) (items : list A) :
  (forall x h h' c, body x h = (c, h') ->
      List.length h' = List.length h /\ store_extends h h') ->
  forall h h' c, for_of body items h = (c, h') ->
    List.length h' = List.length h /\ store_extends h h'.
Proof.
  intros Hbody. induction items as [|x items IH]; intros h h' c Hfor.
  - inversion Hfor; subst. split; [done|apply store_extends_refl].
  - cbn [for_of] in Hfor. unfold bind in Hfor.
    destruct (body x h) as [cx h1] eqn:Hx.
    destruct (Hbody _ _ _ _ Hx) as [Hlen1 Hext1].
    destruct cx as [[]| |]; [|inversion Hfor; by subst..].
    destruct (IH _ _ _ Hfor) as [Hlen2 Hext2].
    split; [congruence|by eapply store_extends_trans].
Qed.

Lemma extract_entry_keeps (operations : value) (files : gmap string value)
    (entry : string * list string) (h h' : heap) (c : completion unit) :
  extract_entry operations files entry h = (c, h') ->
  List.length h' = List.length h /\ store_extends h h'.
Proof.
  destruct entry as [key pathArray]. unfold extract_entry.
  destruct (negb (key_in_files files key)).
  - intros Hthrow. inversion Hthrow; subst. split; [done|apply store_extends_refl].
  - apply for_of_keeps. intros dotPath. apply assign_dotPath_keeps.
Qed.

Lemma extractMultipartVariables_keeps (variables : value)
    (map : list (string * list string)) (files : gmap string value)
    (h h' : heap) (c : completion value) :
  extractMultipartVariables variables map files h = (c, h') ->
  List.length h' = S (List.length h) /\ store_extends h h'.
Proof.
  unfold extractMultipartVariables. unfold bind at 1. unfold new.
  unfold bind at 1.
  destruct (for_of _ map _) as [cf h1] eqn:Hfor.
  destruct (for_of_keeps _ map (extract_entry_keeps _ files) _ _ _ Hfor)
    as [Hlen Hext].
  rewrite length_app in Hlen. cbn [List.length] in Hlen.
  assert (Hall : List.length h1 = S (List.length h) /\ store_extends h h1).
  { split; [lia|]. eapply store_extends_trans; [apply store_extends_new|done]. }
  destruct cf as [[]| |]; [|intros Hr; inversion Hr; by subst..].
  unfold get_property. destruct (h1 !! List.length h) as [o|].
  - destruct (oprops o !! "variables").
    + intros Hr; inversion Hr; by subst.
    + destruct (builtin_member (okind o) "variables");
        intros Hr; inversion Hr; by subst.
  - intros Hr; inversion Hr; by subst.
Qed.

(** ** Entries that assign nothing *)

Lemma for_of_nothing_to_do (operations : value) (files : gmap string value)
    (map : list (string * list string)) (h : heap) :
  Forall (fun entry => key_in_files files entry.1 = true /\ entry.2 = []) map ->
  for_of (extract_entry operations files) map h = (Normal tt, h).
Proof.
  induction 1 as [|[key pathArray] map [Hkey Hpaths] _ IH]; [done|].
  cbn [fst snd] in *. subst pathArray.
  cbn [for_of]. unfold bind, extract_entry. rewrite Hkey. cbn [negb for_of].
  unfold ret at 1. exact IH.
Qed.

Lemma extractMultipartVariables_after_loop (variables : value)
    (map : list (string * list string)) (files : gmap string value)
    (h h1 : heap) :
  for_of (extract_entry (VRef (List.length h)) files) map
    (h ++ [Obj KObject {[ "variables" := variables ]}]) = (Normal tt, h1) ->
  extractMultipartVariables variables map files h
  = get_property (VRef (List.length h)) "variables" h1.
Proof.
  intros Hfor. unfold extractMultipartVariables.
  rewrite (bind_normal _ _ h (h ++ [Obj KObject {[ "variables" := variables ]}])
             (VRef (List.length h))) by done.
  by rewrite (bind_normal _ _ _ _ _ Hfor).
Qed.

Lemma extractMultipartVariables_idle (variables : value)
    (map : list (string * list string)) (files : gmap string value) (h : heap) :
  Forall (fun entry => key_in_files files entry.1 = true /\ entry.2 = []) map ->
  extractMultipartVariables variables map files h
  = (Normal variables, h ++ [Obj KObject {[ "variables" := variables ]}]).
Proof.
  intros Hmap.
  rewrite (extractMultipartVariables_after_loop variables map files h
             (h ++ [Obj KObject {[ "variables" := variables ]}]));
    [|by apply for_of_nothing_to_do].
  unfold get_property. rewrite lookup_snoc_length. cbn [oprops].
  by rewrite lookup_singleton_eq.
Qed.

(** X4: a map that is empty, or whose entries all name an uploaded part but
    list no path, changes nothing: the variables are returned as they were
    given, and the store only gains the wrapper. *)
Theorem extractMultipartVariables_nothing_to_do (variables : value)
    (map : list (string * list string)) (files : gmap string value) (h : heap) :
  Forall (fun entry => key_in_files files entry.1 = true /\ entry.2 = []) map ->
  extractMultipartVariables variables map files h
  = (Normal variables, h ++ [Obj KObject {[ "variables" := variables ]}]).
Proof. apply extractMultipartVariables_idle. Qed.

(** ** The first failure decides *)

(** X5: the entries of the map are applied in order and the first one that
    throws ends the call with its error, in the store it left; the entries
    after it are never looked at, whatever they are. *)
Theorem extractMultipartVariables_first_failure (variables : value)
    (pre post : list (string * list string)) (entry : string * list string)
    (files : gmap string value) (h h1 h2 : heap) (e : exn) :
  for_of (extract_entry (VRef (List.length h)) files) pre
    (h ++ [Obj KObject {[ "variables" := variables ]}]) = (Normal tt, h1) ->
  extract_entry (VRef (List.length h)) files entry h1 = (Throw e, h2) ->
  extractMultipartVariables variables (pre ++ entry :: post) files h
  = (Throw e, h2).
Proof.
  intros Hpre Hentry. unfold extractMultipartVariables.
  rewrite (bind_normal _ _ h (h ++ [Obj KObject {[ "variables" := variables ]}])
             (VRef (List.length h))) by done.
  unfold bind.
  by rewrite (for_of_throws_at _ pre post entry _ h1 h2 e Hpre Hentry).
Qed.

(** ** Paths that meet a primitive *)



(** ** Reading the file back *)

Lemma lookup_path_after_write (h : heap) (l : loc) (o : object) (name : string)
    (v : value) (segments : list string) (target reached : value) :
  h !! l = Some o ->
  name ∉ segments ->
  lookup_path h target segments = Some reached ->
  lookup_path (<[l := Obj (okind o) (<[name := v]> (oprops o))]> h) target segments
  = Some reached.
Proof.
  intros Hl. revert target. induction segments as [|segment rest IH];
    intros target Hnot Hpath; [done|].
  cbn [lookup_path] in *.
  destruct target as [| | | | |l0]; try done.
  destruct (h !! l0) as [o0|] eqn:Hl0; [|done].
  destruct (oprops o0 !! segment) as [next|] eqn:Hseg; [|done].
  apply not_elem_of_cons in Hnot as [Hne Hnot].
  destruct (decide (l0 = l)) as [->|Hl0l].
  - rewrite list_lookup_insert_eq by (by eapply lookup_lt_Some).
    rewrite Hl in Hl0. inversion Hl0; subst o0. cbn [oprops].
    rewrite lookup_insert_ne by done. rewrite Hseg. by apply IH.
  - rewrite list_lookup_insert_ne by done. rewrite Hl0, Hseg. by apply IH.
Qed.

Lemma lookup_path_snoc (h : heap) (segments : list string) (name : string)
    (target : value) (l : loc) (o : object) (v : value) :
  lookup_path h target segments = Some (VRef l) ->
  h !! l = Some o ->
  oprops o !! name = Some v ->
  lookup_path h target (segments ++ [name]) = Some v.
Proof.
  revert target. induction segments as [|segment rest IH]; intros target Hpath Hl Hv.
  - inversion Hpath; subst. cbn [app lookup_path]. by rewrite Hl, Hv.
  - cbn [app lookup_path] in *.
    destruct target as [| | | | |l0]; try done.
    destruct (h !! l0) as [o0|]; [|done].
    destruct (oprops o0 !! segment) as [next|]; [|done]. by apply IH.
Qed.

(** X7: after a dot-path has been assigned, following all its segments from
    [operations] through own properties reaches the file, provided the last
    segment does not also occur earlier in the path. *)
Theorem assign_dotPath_read_back (operations : value)
    (files : gmap string value) (key dotPath : string) (h h' : heap) (file : value) :
  assign_dotPath operations files key dotPath h = (Normal tt, h') ->
  files !! key = Some file ->
  (split_dotPath dotPath).1 ∉ (split_dotPath dotPath).2 ->
  lookup_path h' operations
    ((split_dotPath dotPath).2 ++ [(split_dotPath dotPath).1]) = Some file.
Proof.
  intros Hassign Hfile Hnot.
  destruct (assign_dotPath_cases operations files key dotPath h)
    as [[Hfail _]|[_ (l & o & Hpath & Hl & Hwrite)]];
    rewrite Hassign in *; cbn [fst snd] in *; [done|].
  subst h'. rewrite Hfile. cbn [default from_option id].
  eapply lookup_path_snoc.
  - by apply lookup_path_after_write.
  - apply list_lookup_insert_eq. by eapply lookup_lt_Some.
  - cbn [oprops]. by rewrite lookup_insert_eq.
Qed.

(** ** Paths of one and of two segments *)

Lemma string_split_single (s : string) :
  no_dot s = true -> string_split "." s = [s].
Proof.
  induction s as [|c r IH]; [done|]. cbn [no_dot string_split].
  intros Hs. apply andb_prop in Hs as [Hc Hr].
  apply negb_true_iff in Hc. rewrite Hc. by rewrite IH.
Qed.

Lemma string_split_app (sep : ascii) (a b : string) :
  string_split sep (a +:+ String sep b) = string_split sep a ++ string_split sep b.
Proof.
  induction a as [|c r IH].
  - change (EmptyString +:+ String sep b) with (String sep b).
    cbn [string_split]. by rewrite Ascii.eqb_refl.
  - rewrite append_cons. cbn [string_split]. rewrite IH.
    destruct (Ascii.eqb c sep); [done|].
    pose proof (string_split_nonempty sep r) as Hne.
    by destruct (string_split sep r).
Qed.

Lemma split_dotPath_single (dotPath : string) :
  no_dot dotPath = true -> split_dotPath dotPath = (dotPath, []).
Proof. intros Hd. unfold split_dotPath. by rewrite string_split_single. Qed.

Lemma split_dotPath_variables (name : string) :
  no_dot name = true ->
  split_dotPath ("variables." +:+ name) = (name, ["variables"]).
Proof.
  intros Hname. unfold split_dotPath.
  change ("variables." +:+ name) with ("variables" +:+ String "." name).
  rewrite string_split_app, (string_split_single name) by done.
  reflexivity.
Qed.

(** X8: a dot-path without a dot is stored on the wrapper object, not in the
    variables: no object that was in the store is written.  The variables
    come back as they were given, except for the path [variables] itself,
    for which the file is returned in their place. *)
Theorem extractMultipartVariables_one_segment (variables file : value)
    (files : gmap string value) (key dotPath : string) (h : heap) :
  no_dot dotPath = true ->
  files !! key = Some file ->
  (dotPath <> "variables" -> builtin_member KObject dotPath = false) ->
  extractMultipartVariables variables [(key, [dotPath])] files h
  = (Normal (if decide (dotPath = "variables") then file else variables),
     h ++ [Obj KObject (<[dotPath := file]> {[ "variables" := variables ]})]).
Proof.
  intros Hdot Hfile Hbuiltin.
  set (wo := Obj KObject {[ "variables" := variables ]}).
  assert (Hassign :
    assign_dotPath (VRef (List.length h)) files key dotPath (h ++ [wo])
    = (Normal tt, h ++ [Obj KObject (<[dotPath := file]> {[ "variables" := variables ]})])).
  { rewrite (assign_dotPath_assigns (VRef (List.length h)) files key dotPath
               dotPath [] _ (List.length h) wo file (split_dotPath_single _ Hdot)).
    - by rewrite insert_snoc_length.
    - done.
    - apply lookup_snoc_length.
    - done.
    - cbn [oprops okind wo]. intros Hnone. apply Hbuiltin. intros ->.
      by rewrite lookup_singleton_eq in Hnone. }
  rewrite (extractMultipartVariables_after_loop variables _ files h
             (h ++ [Obj KObject (<[dotPath := file]> {[ "variables" := variables ]})])).
  - unfold get_property. rewrite lookup_snoc_length. cbn [oprops].
    destruct (decide (dotPath = "variables")) as [->|Hne].
    + by rewrite lookup_insert_eq.
    + rewrite lookup_insert_ne by done. by rewrite lookup_singleton_eq.
  - cbn [for_of]. unfold extract_entry, key_in_files. rewrite Hfile.
    cbn [negb for_of].
    rewrite (bind_normal _ _ _
               (h ++ [Obj KObject (<[dotPath := file]> {[ "variables" := variables ]})])
               tt); [done|].
    by rewrite (bind_normal _ _ _ _ _ Hassign).
Qed.

(** X9: the path [variables.name], for a name without a dot and variables
    that are an object, sets that one variable to the file: the variables
    object holds the file under [name] and is otherwise as it was, no other
    object that was in the store changes, and the same reference is
    returned. *)
Theorem extractMultipartVariables_top_level (l : loc) (o : object) (file : value)
    (files : gmap string value) (key name : string) (h : heap) :
  h !! l = Some o ->
  no_dot name = true ->
  files !! key = Some file ->
  (oprops o !! name = None -> builtin_member (okind o) name = false) ->
  extractMultipartVariables (VRef l) [(key, ["variables." +:+ name])] files h
  = (Normal (VRef l),
     <[l := Obj (okind o) (<[name := file]> (oprops o))]> h
     ++ [Obj KObject {[ "variables" := VRef l ]}]).
Proof.
  intros Hl Hname Hfile Hbuiltin.
  set (wo := Obj KObject {[ "variables" := VRef l ]}).
  assert (Hlt : l < List.length h) by (by eapply lookup_lt_Some).
  assert (Hassign :
    assign_dotPath (VRef (List.length h)) files key ("variables." +:+ name) (h ++ [wo])
    = (Normal tt, <[l := Obj (okind o) (<[name := file]> (oprops o))]> h ++ [wo])).
  { rewrite (assign_dotPath_assigns (VRef (List.length h)) files key _
               name ["variables"] _ l o file (split_dotPath_variables _ Hname)).
    - by rewrite insert_app_l.
    - cbn [lookup_path]. rewrite lookup_snoc_length. cbn [oprops wo].
      by rewrite lookup_singleton_eq.
    - by apply lookup_app_l_Some.
    - done.
    - done. }
  rewrite (extractMultipartVariables_after_loop (VRef l) _ files h
             (<[l := Obj (okind o) (<[name := file]> (oprops o))]> h ++ [wo])).
  - unfold get_property.
    rewrite <- (length_insert h l (Obj (okind o) (<[name := file]> (oprops o)))).
    rewrite lookup_snoc_length. cbn [oprops wo].
    by rewrite lookup_singleton_eq.
  - cbn [for_of]. unfold extract_entry, key_in_files. rewrite Hfile.
    cbn [negb for_of].
    rewrite (bind_normal _ _ _
               (<[l := Obj (okind o) (<[name := file]> (oprops o))]> h ++ [wo]) tt);
      [done|].
    by rewrite (bind_normal _ _ _ _ _ Hassign).
Qed.

(** ** Requests that are not GraphQL *)

(** X11: a request whose method is neither GET nor POST, and a POST request
    whose body is not an object (no body, text), is not a GraphQL request:
    the result is null, nothing is written and nothing is logged. *)
Theorem parseGraphQLRequest_not_GraphQL (request : MockedRequest) (h : heap) :
  (method request <> "GET" /\ method request <> "POST")
  \/ (method request = "POST" /\ is_primitive (body request) = true) ->
  parseGraphQLRequest request h = (Normal None, h, []).
Proof.
  intros [[Hget Hpost]|[Hpost Hbody]]; apply parseGraphQLRequest_no_input.
  - by apply getGraphQLInput_other_method.
  - assert (Hfield : forall name,
              body_field (body request) name h = (Normal VUndefined, h)).
    { intros name. unfold body_field. by destruct (body request). }
    rewrite (getGraphQLInput_POST_falsy_query request h VUndefined); [|done..].
    by apply (POST_without_query_no_operations request h VUndefined).
Qed.

(** X12: a multipart body whose [operations] text cannot be decoded, or
    decodes to something without a [query], is not a GraphQL request: the
    result is null, nothing is written or logged, and the [map] and the
    files are not looked at. *)
Theorem parseGraphQLRequest_undecodable_operations (request : MockedRequest)
    (h : heap) (l : loc) (o : object) (operations : string) :
  method request = "POST" ->
  body request = VRef l ->
  h !! l = Some o ->
  truthy (default VUndefined (oprops o !! "query")) = false ->
  oprops o !! "operations" = Some (VString operations) ->
  operations <> EmptyString ->
  jsonParse operations = None
  \/ (exists j, jsonParse operations = Some j /\ json_get j "query" = None) ->
  parseGraphQLRequest request h = (Normal None, h, []).
Proof.
  intros Hm Hb Hl Hq Hops Hne Hparse.
  apply parseGraphQLRequest_no_input.
  apply (getGraphQLInput_multipart_falsy_query request h l o operations);
    try done.
  destruct Hparse as [-> | (j & -> & Hj)]; [done|].
  cbn [or_empty_object]. destruct (json_truthy j); [by rewrite Hj|done].
Qed.

(** ** A map that is absent or cannot be decoded *)

(** X13: when a multipart body has no [map], or a [map] text that cannot be
    decoded, the map counts as empty: the decoded variables are returned as
    they are, with the query, and nothing is thrown. *)
Theorem getGraphQLInput_multipart_without_map (request : MockedRequest)
    (h : heap) (l : loc) (o : object) (operations map_field : string)
    (parsedOperations parsedVariables : json) (text : string) :
  method request = "POST" ->
  body request = VRef l ->
  h !! l = Some o ->
  truthy (default VUndefined (oprops o !! "query")) = false ->
  oprops o !! "operations" = Some (VString operations) ->
  operations <> EmptyString ->
  jsonParse operations = Some parsedOperations ->
  json_get parsedOperations "query" = Some (JStr text) ->
  text <> EmptyString ->
  json_get parsedOperations "variables" = Some parsedVariables ->
  json_truthy parsedVariables = true ->
  (oprops o !! "map" = None /\ jsonParse EmptyString = None)
  \/ (oprops o !! "map" = Some (VString map_field) /\ jsonParse map_field = None) ->
  exists v fresh,
    alloc_json parsedVariables h = (Normal v, h ++ fresh)
    /\ getGraphQLInput request h
       = (Normal (Some {| query := Some text; variables := v |}),
          (h ++ fresh) ++ [Obj KObject {[ "variables" := v ]}]).
Proof.
  intros Hm Hb Hl Hq Hops Hopsne Hparse Hquery Htext Hvars Htruthy Hmap.
  destruct (alloc_json_extends parsedVariables h) as (v & fresh & Halloc).
  exists v, fresh. split; [done|].
  rewrite (getGraphQLInput_POST_falsy_query request h
             (default VUndefined (oprops o !! "query")));
    [|done|rewrite Hb; by apply body_field_object|done].
  unfold POST_without_query. rewrite Hb.
  rewrite (bind_normal _ _ _ _ _ (body_field_object l o "operations" h Hl)).
  rewrite Hops. apply String.eqb_neq in Hopsne, Htext.
  cbn [default from_option id truthy]. rewrite Hopsne. cbn [negb].
  unfold getMultipartInput.
  rewrite (bind_normal _ _ h h (oprops o)) by (unfold body_props; by rewrite Hl).
  rewrite (bind_normal _ _ _ _ _ (body_field_object l o "map" h Hl)).
  rewrite Hparse.
  assert (Hobj : json_truthy parsedOperations = true).
  { destruct parsedOperations; try done. }
  cbn [or_empty_object]. rewrite Hobj, Hquery, Hvars, Htruthy.
  cbn [from_option json_truthy]. rewrite Htext. cbn [negb].
  assert (Hmap_text : exists map_text0,
    (if negb (truthy (default VUndefined (oprops o !! "map")))
     then ret EmptyString
     else match default VUndefined (oprops o !! "map") with
          | VString s => ret s
          | _ => beyond
          end) h = (Normal map_text0, h)
    /\ jsonParse map_text0 = None).
  { destruct Hmap as [[-> Hnone] | [-> Hnone]];
      cbn [default from_option id truthy negb].
    - by exists EmptyString.
    - destruct (String.eqb_spec map_field EmptyString) as [->|Hne];
        cbn [negb]; by eexists. }
  destruct Hmap_text as (map_text0 & Hmap_text & Hnone).
  rewrite (bind_normal _ _ _ _ _ Hmap_text). rewrite Hnone.
  cbn [or_empty_object Object_entries mapM].
  rewrite (bind_normal _ _ h ((h ++ fresh) ++ [Obj KObject {[ "variables" := v ]}]) v);
    [done|].
  rewrite (bind_normal _ _ _ _ _ Halloc).
  apply extractMultipartVariables_idle. constructor.
Qed.

(** ** What parseGraphQLRequest adds to extraction *)

(** X14: when extraction gives a non-empty query that parses,
    [parseGraphQLRequest] returns the type and name of the document's first
    operation definition together with the extracted variables, the very
    value extraction gave; it logs nothing and leaves the store as
    extraction left it. *)
Theorem parseGraphQLRequest_parsed (request : MockedRequest) (h h' : heap)
    (input : GraphQLInput) (text : string) (ast pre rest : DocumentNode)
    (operation : OperationTypeNode) (name : option string) :
  getGraphQLInput request h = (Normal (Some input), h') ->
  query input = Some text ->
  text <> EmptyString ->
  parse text = inr ast ->
  ast = pre ++ OperationDefinition operation name :: rest ->
  forallb (fun def => negb (is_OperationDefinition def)) pre = true ->
  parseGraphQLRequest request h
  = (Normal (Some {| req_operationType := Some operation;
                     req_operationName := name;
                     req_variables := variables input |}), h', []).
Proof.
  intros Hi Hq Hne Hparse -> Hpre.
  unfold parseGraphQLRequest, parseQuery. rewrite Hi, Hq, Hparse.
  apply String.eqb_neq in Hne. cbn [truthy]. rewrite Hne. cbn [negb].
  by rewrite find_operation_first.
Qed.

(** X15: [parseGraphQLRequest] writes to the console only when the parser
    has rejected a non-empty extracted query: in every other case the log is
    empty, and whenever it is not, it is the message followed by the
    parser's error, and the result is null. *)
Theorem parseGraphQLRequest_log (request : MockedRequest) (h : heap) :
  (parseGraphQLRequest request h).2 = []
  \/ exists input h' text error,
       getGraphQLInput request h = (Normal (Some input), h')
       /\ query input = Some text
       /\ text <> EmptyString
       /\ parse text = inl error
       /\ parseGraphQLRequest request h
          = (Normal None, h',
             [LogString (parse_failure_message request); LogError error]).
Proof.
  unfold parseGraphQLRequest, parseQuery.
  destruct (getGraphQLInput request h) as [c h'] eqn:Hi.
  destruct c as [[input|]| |]; [|by left..].
  destruct (query input) as [text|] eqn:Hq; [|by left].
  destruct (String.eqb_spec text EmptyString) as [->|Hne]; [by left|].
  assert (Htruthy : negb (truthy (VString text)) = false).
  { cbn [truthy]. apply String.eqb_neq in Hne. by rewrite Hne. }
  rewrite Htruthy.
  destruct (parse text) as [error|ast] eqn:Hparse; [|by left].
  right. by exists input, h', text, error.
Qed.

(** ** GET without usable variables *)

(** X16: for a GET request whose [variables] parameter is missing or cannot
    be decoded, extraction gives the [query] parameter as it is and
    [undefined] variables.  [parseGraphQLRequest] then writes nothing to the
    store, and any parsed result it returns has [undefined] variables. *)
Theorem getGraphQLInput_GET_without_variables (request : MockedRequest) (h : heap) :
  method request = "GET" ->
  jsonParse (default EmptyString (searchParams_get "variables" (searchParams request)))
  = None ->
  getGraphQLInput request h
  = (Normal (Some {| query := searchParams_get "query" (searchParams request);
                     variables := VUndefined |}), h)
  /\ (parseGraphQLRequest request h).1.2 = h
  /\ forall r, (parseGraphQLRequest request h).1.1 = Normal (Some r) ->
               req_variables r = VUndefined.
Proof.
  intros Hm Hnone.
  assert (Hi : getGraphQLInput request h
               = (Normal (Some {| query := searchParams_get "query" (searchParams request);
                                  variables := VUndefined |}), h)).
  { unfold getGraphQLInput. rewrite Hm.
    cbn [String.eqb Ascii.eqb Bool.eqb]. by rewrite Hnone. }
  split; [done|]. unfold parseGraphQLRequest. rewrite Hi. cbn [query variables].
  destruct (searchParams_get "query" (searchParams request)) as [text|];
    [|split; [done|intros r Hr; by inversion Hr]].
  destruct (negb (truthy (VString text)));
    [split; [done|intros r Hr; by inversion Hr]|].
  destruct (parseQuery text);
    (split; [done|intros r Hr; inversion Hr; by subst]).
Qed.

(** ** One part for several variables *)

Lemma for_of_top_level (l : loc) (file : value) (files : gmap string value)
    (key : string) (operations : loc) (names : list string) :
  files !! key = Some file ->
  Forall (fun name => no_dot name = true) names ->
  forall (o : object) (h : heap),
    h !! l = Some o ->
    h !! operations = Some (Obj KObject {[ "variables" := VRef l ]}) ->
    operations <> l ->
    Forall (fun name => oprops o !! name = None ->
                        builtin_member (okind o) name = false) names ->
    for_of (assign_dotPath (VRef operations) files key)
      (List.map (fun name => "variables." +:+ name) names) h
    = (Normal tt,
       <[l := Obj (okind o)
                (foldl (fun props name => <[name := file]> props) (oprops o) names)]> h).
Proof.
  intros Hfile Hdots. induction Hdots as [|name names Hname _ IH];
    intros o h Hl Hops Hne Hbuiltin.
  - cbn [List.map for_of foldl]. destruct o as [k props]. cbn [okind oprops].
    by rewrite list_insert_id.
  - apply Forall_cons in Hbuiltin as [Hb Hbs].
    cbn [List.map for_of foldl].
    rewrite (bind_normal _ _ h
               (<[l := Obj (okind o) (<[name := file]> (oprops o))]> h) tt).
    + rewrite (IH (Obj (okind o) (<[name := file]> (oprops o)))).
      * cbn [okind oprops]. by rewrite list_insert_insert_eq.
      * apply list_lookup_insert_eq. by eapply lookup_lt_Some.
      * by rewrite list_lookup_insert_ne.
      * done.
      * cbn [okind oprops]. eapply Forall_impl; [exact Hbs|].
        intros name0 Hb0 Hnone. apply Hb0.
        destruct (decide (name = name0)) as [->|Hn].
        -- by rewrite lookup_insert_eq in Hnone.
        -- by rewrite lookup_insert_ne in Hnone.
    + apply (assign_dotPath_assigns (VRef operations) files key _ name ["variables"]);
        [by apply split_dotPath_variables| |done..].
      cbn [lookup_path]. rewrite Hops. cbn [oprops].
      by rewrite lookup_singleton_eq.
Qed.

(** X17: one part that the map sends to several top-level variables is
    stored under every one of them: after the call the variables object
    holds the same file value under each name, in the order of the list,
    and is otherwise as it was. *)
Theorem extractMultipartVariables_several_variables (l : loc) (o : object)
    (file : value) (files : gmap string value) (key : string)
    (names : list string) (h : heap) :
  h !! l = Some o ->
  files !! key = Some file ->
  Forall (fun name => no_dot name = true) names ->
  Forall (fun name => oprops o !! name = None ->
                      builtin_member (okind o) name = false) names ->
  extractMultipartVariables (VRef l)
    [(key, List.map (fun name => "variables." +:+ name) names)] files h
  = (Normal (VRef l),
     <[l := Obj (okind o)
              (foldl (fun props name => <[name := file]> props) (oprops o) names)]> h
     ++ [Obj KObject {[ "variables" := VRef l ]}]).
Proof.
  intros Hl Hfile Hdots Hbuiltin.
  set (wo := Obj KObject {[ "variables" := VRef l ]}).
  assert (Hlt : l < List.length h) by (by eapply lookup_lt_Some).
  rewrite (extractMultipartVariables_after_loop (VRef l) _ files h
             (<[l := Obj (okind o)
                      (foldl (fun props name => <[name := file]> props)
                         (oprops o) names)]> h ++ [wo])).
  - unfold get_property.
    rewrite <- (length_insert h l
                  (Obj (okind o)
                     (foldl (fun props name => <[name := file]> props)
                        (oprops o) names))).
    rewrite lookup_snoc_length. cbn [oprops wo].
    by rewrite lookup_singleton_eq.
  - cbn [for_of]. unfold extract_entry, key_in_files. rewrite Hfile.
    cbn [negb].
    rewrite (bind_normal _ _ _
               (<[l := Obj (okind o)
                        (foldl (fun props name => <[name := file]> props)
                           (oprops o) names)]> h ++ [wo]) tt); [done|].
    rewrite (for_of_top_level l file files key (List.length h) names Hfile Hdots o).
    + by rewrite insert_app_l.
    + by apply lookup_app_l_Some.
    + apply lookup_snoc_length.
    + lia.
    + done.
Qed.

(** ** What parsing keeps in the store *)

Lemma store_extends_app (h fresh : heap) : store_extends h (h ++ fresh).
Proof.
  intros l o Hl. exists o. split; [|apply object_extends_refl].
  by apply lookup_app_l_Some.
Qed.

Lemma only_extends_same {A} (m : M A) :
  (forall h c h', m h = (c, h') -> h' = h) -> only_extends m.
Proof.
  intros Hsame h c h' Hm. rewrite (Hsame _ _ _ Hm).
  split; [done|apply store_extends_refl].
Qed.

Lemma only_extends_bind {A B} (m : M A) (k : A -> M B) :
  only_extends m -> (forall a, only_extends (k a)) -> only_extends (bind m k).
Proof.
  intros Hm Hk h c h' Hbind. unfold bind in Hbind.
  destruct (m h) as [cm h1] eqn:Hmh. destruct (Hm _ _ _ Hmh) as [Hlen1 Hext1].
  destruct cm as [a| |]; [|inversion Hbind; by subst..].
  destruct (Hk a _ _ _ Hbind) as [Hlen2 Hext2].
  split; [lia|by eapply store_extends_trans].
Qed.

Lemma only_extends_ret {A} (a : A) : only_extends (ret a).
Proof. apply only_extends_same. intros h c h' Hr. by inversion Hr. Qed.

Lemma only_extends_beyond {A} : only_extends (@beyond A).
Proof. apply only_extends_same. intros h c h' Hr. by inversion Hr. Qed.

Lemma only_extends_new (o : object) : only_extends (new o).
Proof.
  intros h c h' Hnew. inversion Hnew; subst. split.
  - rewrite length_app. lia.
  - apply store_extends_app.
Qed.

Lemma only_extends_alloc_json (j : json) : only_extends (alloc_json j).
Proof.
  intros h c h' Halloc. destruct (alloc_json_extends j h) as (v & fresh & Hv).
  rewrite Hv in Halloc. inversion Halloc; subst. split.
  - rewrite length_app. lia.
  - apply store_extends_app.
Qed.

Lemma only_extends_body_field (b : value) (name : string) :
  only_extends (body_field b name).
Proof. apply only_extends_same. intros h c h'. apply body_field_heap. Qed.

Lemma only_extends_body_props (b : value) : only_extends (body_props b).
Proof.
  apply only_extends_same. intros h c h'. unfold body_props.
  destruct b; try (intros Hr; by inversion Hr).
  destruct (h !! l); intros Hr; by inversion Hr.
Qed.

Lemma only_extends_extract (variables : value)
    (map : list (string * list string)) (files : gmap string value) :
  only_extends (extractMultipartVariables variables map files).
Proof.
  intros h c h' Hr.
  destruct (extractMultipartVariables_keeps _ _ _ _ _ _ Hr) as [Hlen Hext].
  split; [lia|done].
Qed.

Lemma only_extends_getMultipartInput (b operations : value) :
  only_extends (getMultipartInput b operations).
Proof.
  unfold getMultipartInput.
  apply only_extends_bind; [apply only_extends_body_props|]. intros props.
  apply only_extends_bind; [apply only_extends_body_field|]. intros map.
  destruct operations; try apply only_extends_beyond.
  destruct (negb _); [apply only_extends_ret|].
  apply only_extends_bind.
  { destruct (negb (truthy map)); [apply only_extends_ret|].
    destruct map; try apply only_extends_beyond. apply only_extends_ret. }
  intros map_text0. apply only_extends_bind.
  - destruct (json_get _ "variables") as [j|]; [|apply only_extends_new].
    destruct (json_truthy j); [|apply only_extends_new].
    apply only_extends_bind; [apply only_extends_alloc_json|]. intros v.
    destruct (Object_entries _); [apply only_extends_extract|apply only_extends_beyond].
  - intros variables. destruct (json_get _ "query") as [[]|];
      try apply only_extends_beyond. apply only_extends_ret.
Qed.

Lemma only_extends_getGraphQLInput (request : MockedRequest) :
  only_extends (getGraphQLInput request).
Proof.
  unfold getGraphQLInput.
  destruct (String.eqb (method request) "GET").
  - apply only_extends_bind; [|intros v; apply only_extends_ret].
    unfold alloc_parsed. destruct (jsonParse _);
      [apply only_extends_alloc_json|apply only_extends_ret].
  - destruct (String.eqb (method request) "POST"); [|apply only_extends_ret].
    apply only_extends_bind; [apply only_extends_body_field|]. intros query.
    destruct (truthy query).
    + apply only_extends_bind; [apply only_extends_body_field|]. intros variables.
      destruct query; try apply only_extends_beyond. apply only_extends_ret.
    + unfold POST_without_query.
      apply only_extends_bind; [apply only_extends_body_field|]. intros operations.
      destruct (truthy operations);
        [apply only_extends_getMultipartInput|apply only_extends_ret].
Qed.

(** ** One dot-path, one write *)

(** X2: a dot-path that throws, with the descriptive [Error] or with a
    [TypeError], has written nothing.  A dot-path that succeeds has written
    one entry: the segments before the last lead, through own properties, to
    an object, and the only change to the entries of the store is that this
    object holds the file under the last segment. *)
Theorem assign_dotPath_one_write (operations : value)
    (files : gmap string value) (key dotPath : string) (h : heap) :
  (forall e,
      (assign_dotPath operations files key dotPath h).1 = Throw e ->
      (assign_dotPath operations files key dotPath h).2 = h)
  /\ ((assign_dotPath operations files key dotPath h).1 = Normal tt ->
      exists l o,
        lookup_path h operations (split_dotPath dotPath).2 = Some (VRef l)
        /\ h !! l = Some o
        /\ (assign_dotPath operations files key dotPath h).2
           = <[l := Obj (okind o)
                      (<[(split_dotPath dotPath).1 :=
                           default VUndefined (files !! key)]> (oprops o))]> h).
Proof.
  destruct (assign_dotPath_cases operations files key dotPath h)
    as [[Hfail Hsame]|[Hok Hwrite]].
  - split; [by intros e _|]. intros Hok. by rewrite Hok in Hfail.
  - split; [|by intros _]. intros e He. rewrite Hok in He. discriminate He.
Qed.

(** ** What a call that returns or throws has kept *)

(** X3: whenever [extractMultipartVariables] returns or throws, it has added
    exactly one object to the store (the wrapper [operations]), every object
    that was there is still there with its kind, and none of them has lost
    an entry: it only writes and adds properties. *)
Theorem extractMultipartVariables_only_extends (variables : value)
    (map : list (string * list string)) (files : gmap string value)
    (h h' : heap) (c : completion value) :
  extractMultipartVariables variables map files h = (c, h') ->
  c <> Beyond ->
  List.length h' = S (List.length h) /\ store_extends h h'.
Proof.
  intros Hr _. by apply (extractMultipartVariables_keeps variables map files h h' c).
Qed.

(** X18: whenever [parseGraphQLRequest] ends with a result, with null or
    with a thrown error, it has removed nothing from the store: every object
    that was there is still there, of the same kind, with at least the
    entries it had. *)
Theorem parseGraphQLRequest_only_extends (request : MockedRequest) (h h' : heap)
    (c : completion (option ParsedGraphQLRequest)) (log : list console_entry) :
  parseGraphQLRequest request h = (c, h', log) ->
  c <> Beyond ->
  List.length h <= List.length h' /\ store_extends h h'.
Proof.
  intros Hr _.
  assert (Hsame : (parseGraphQLRequest request h).1.2 = (getGraphQLInput request h).2).
  { unfold parseGraphQLRequest.
    destruct (getGraphQLInput request h) as [[[input|]| |] h0]; try done.
    destruct (query input) as [text|]; [|done].
    destruct (negb (truthy (VString text))); [done|].
    by destruct (parseQuery text). }
  rewrite Hr in Hsame. cbn [fst snd] in Hsame. subst h'.
  destruct (getGraphQLInput request h) as [ci h0] eqn:Hi.
  by apply (only_extends_getGraphQLInput request h ci h0).
Qed.

(** ** The multipart branch hands over to extractMultipartVariables *)

Lemma getGraphQLInput_multipart_runs (request : MockedRequest) (h h1 : heap)
    (l : loc) (o : object) (operations map_field : string)
    (parsedOperations parsedVariables parsedMap : json) (text : string)
    (entries : list (string * list string)) (v : value) :
  method request = "POST" ->
  body request = VRef l ->
  h !! l = Some o ->
  truthy (default VUndefined (oprops o !! "query")) = false ->
  oprops o !! "operations" = Some (VString operations) ->
  operations <> EmptyString ->
  jsonParse operations = Some parsedOperations ->
  json_get parsedOperations "query" = Some (JStr text) ->
  text <> EmptyString ->
  json_get parsedOperations "variables" = Some parsedVariables ->
  json_truthy parsedVariables = true ->
  oprops o !! "map" = Some (VString map_field) ->
  jsonParse map_field = Some parsedMap ->
  Object_entries parsedMap = Some entries ->
  alloc_json parsedVariables h = (Normal v, h1) ->
  getGraphQLInput request h
  = match extractMultipartVariables v entries
            (delete "operations" (delete "map" (oprops o))) h1 with
    | (Normal vars, h2) =>
        (Normal (Some {| query := Some text; variables := vars |}), h2)
    | (Throw e, h2) => (Throw e, h2)
    | (Beyond, h2) => (Beyond, h2)
    end.
Proof.
  intros Hm Hb Hl Hq Hops Hopsne Hparse Hquery Htext Hvars Htruthy Hmap
    Hparse_map Hentries Halloc.
  rewrite (getGraphQLInput_POST_falsy_query request h
             (default VUndefined (oprops o !! "query")));
    [|done|rewrite Hb; by apply body_field_object|done].
  unfold POST_without_query. rewrite Hb.
  rewrite (bind_normal _ _ _ _ _ (body_field_object l o "operations" h Hl)).
  rewrite Hops. apply String.eqb_neq in Hopsne, Htext.
  cbn [default from_option id truthy]. rewrite Hopsne. cbn [negb].
  unfold getMultipartInput.
  rewrite (bind_normal _ _ h h (oprops o)) by (unfold body_props; by rewrite Hl).
  rewrite (bind_normal _ _ _ _ _ (body_field_object l o "map" h Hl)).
  rewrite Hparse.
  assert (Hobj : json_truthy parsedOperations = true).
  { destruct parsedOperations; try done. }
  cbn [or_empty_object]. rewrite Hobj, Hquery, Hvars, Htruthy.
  cbn [from_option json_truthy]. rewrite Htext. cbn [negb].
  rewrite Hmap. cbn [default from_option id truthy].
  assert (Hmap_text :
    (if negb (negb (String.eqb map_field EmptyString))
     then ret EmptyString else ret map_field) h = (Normal map_field, h)).
  { destruct (String.eqb_spec map_field EmptyString) as [->|Hne]; by cbn [negb]. }
  rewrite (bind_normal _ _ _ _ _ Hmap_text). rewrite Hparse_map.
  assert (HparsedMap : json_truthy parsedMap = true).
  { destruct parsedMap; try done. }
  cbn [or_empty_object]. rewrite HparsedMap, Hentries.
  unfold bind at 1. unfold bind at 1. rewrite Halloc.
  by destruct (extractMultipartVariables v entries _ h1) as [[vars|e|] h2].
Qed.

(** X10: in the multipart branch the rest pattern takes [operations] and
    [map] out of the files and nothing else.  A map entry keyed [operations]
    or [map] makes [getGraphQLInput] throw the missing-key error although
    the body has such a field; an entry keyed by any other field of the
    body passes the key test, whatever that field holds. *)
Theorem getGraphQLInput_rest_pattern (request : MockedRequest) (h h1 : heap)
    (l : loc) (o : object) (operations map_field : string)
    (parsedOperations parsedVariables parsedMap : json) (text key : string)
    (pathArray : list string) (rest : list (string * list string)) (v : value) :
  method request = "POST" ->
  body request = VRef l ->
  h !! l = Some o ->
  truthy (default VUndefined (oprops o !! "query")) = false ->
  oprops o !! "operations" = Some (VString operations) ->
  operations <> EmptyString ->
  jsonParse operations = Some parsedOperations ->
  json_get parsedOperations "query" = Some (JStr text) ->
  text <> EmptyString ->
  json_get parsedOperations "variables" = Some parsedVariables ->
  json_truthy parsedVariables = true ->
  oprops o !! "map" = Some (VString map_field) ->
  jsonParse map_field = Some parsedMap ->
  Object_entries parsedMap = Some ((key, pathArray) :: rest) ->
  alloc_json parsedVariables h = (Normal v, h1) ->
  (key = "operations" \/ key = "map" ->
   builtin_member KObject key = false ->
   getGraphQLInput request h
   = (Throw (Error ("Given files do not have a key '" +:+ key +:+ "' .")),
      h1 ++ [Obj KObject {[ "variables" := v ]}]))
  /\ (key <> "operations" -> key <> "map" ->
      is_Some (oprops o !! key) ->
      pathArray = [] -> rest = [] ->
      getGraphQLInput request h
      = (Normal (Some {| query := Some text; variables := v |}),
         h1 ++ [Obj KObject {[ "variables" := v ]}])).
Proof.
  intros Hm Hb Hl Hq Hops Hopsne Hparse Hquery Htext Hvars Htruthy Hmap
    Hparse_map Hentries Halloc.
  rewrite (getGraphQLInput_multipart_runs request h h1 l o operations map_field
             parsedOperations parsedVariables parsedMap text
             ((key, pathArray) :: rest) v) by done.
  split.
  - intros Hkey Hbuiltin.
    assert (Hgone : delete "operations" (delete "map" (oprops o)) !! key = None).
    { destruct Hkey as [-> | ->].
      - by rewrite lookup_delete_eq.
      - rewrite lookup_delete_ne by done. by rewrite lookup_delete_eq. }
    assert (Hthrow :
      extractMultipartVariables v ((key, pathArray) :: rest)
        (delete "operations" (delete "map" (oprops o))) h1
      = (Throw (Error (missing_key_message key)),
         h1 ++ [Obj KObject {[ "variables" := v ]}])).
    { unfold extractMultipartVariables.
      rewrite (bind_normal _ _ h1 (h1 ++ [Obj KObject {[ "variables" := v ]}])
                 (VRef (List.length h1))) by done.
      unfold bind.
      rewrite (for_of_throws_at _ [] rest (key, pathArray) _ _
                 (h1 ++ [Obj KObject {[ "variables" := v ]}])
                 (Error (missing_key_message key)) eq_refl); [done|].
      unfold extract_entry, key_in_files. by rewrite Hgone, Hbuiltin. }
    by rewrite Hthrow.
  - intros Hops_ne Hmap_ne [part Hpart] -> ->.
    rewrite (extractMultipartVariables_idle v [(key, [])]
               (delete "operations" (delete "map" (oprops o))) h1); [done|].
    constructor; [|constructor]. split; [|done]. cbn [fst].
    unfold key_in_files. rewrite !lookup_delete_ne by done. by rewrite Hpart.
Qed.

(** ** One dot-path through extractMultipartVariables *)



(** ** A query that does not parse *)

(** C6 (amended): when extraction returns a non-empty query and the parser
    rejects it, [parseGraphQLRequest] returns null and calls
    [console.error] twice: first with the message naming the method and the
    public URL, then with the parser's error.  It writes nothing to the
    store beyond what extraction did: no object that was there has lost an
    entry or changed its kind; for GET extraction only allocates, and for a
    POST body with a query it writes nothing.  When extraction itself
    throws, as for a multipart map that names a missing part, the error
    leaves [parseGraphQLRequest] before the query is parsed, and nothing is
    logged. *)
Theorem parseGraphQLRequest_invalid_query (request : MockedRequest) (h : heap) :
  (forall input h' text error,
      getGraphQLInput request h = (Normal (Some input), h') ->
      query input = Some text ->
      text <> EmptyString ->
      parse text = inl error ->
      parseGraphQLRequest request h
      = (Normal None, h',
         [LogString (parse_failure_message request); LogError error])
      /\ parse_failure_message request
         = "[MSW] Failed to intercept a GraphQL request to " +:+ dquote +:+
           method request +:+ " " +:+ getPublicUrlFromRequest request +:+ dquote +:+
           ": cannot parse query. See the error message from the parser below."
      /\ List.length h <= List.length h'
      /\ store_extends h h'
      /\ (method request = "GET" -> exists fresh, h' = h ++ fresh)
      /\ (forall v, method request = "POST" ->
            body_field (body request) "query" h = (Normal v, h) ->
            truthy v = true -> h' = h))
  /\ (forall e h',
        getGraphQLInput request h = (Throw e, h') ->
        parseGraphQLRequest request h = (Throw e, h', [])).
Proof.
  split; [|intros e h'; apply parseGraphQLRequest_rethrows].
  intros input h' text error Hi Hq Hne Hparse.
  destruct (only_extends_getGraphQLInput request h _ _ Hi) as [Hlen Hext].
  split; [|split; [done|split; [done|split; [done|split]]]].
  - unfold parseGraphQLRequest, parseQuery. rewrite Hi, Hq, Hparse. simpl.
    apply String.eqb_neq in Hne. by rewrite Hne.
  - intros Hm. destruct (getGraphQLInput_GET request h Hm) as (v & fresh & Hg & _).
    rewrite Hg in Hi. inversion Hi. by exists fresh.
  - intros v Hm Hv Ht. unfold getGraphQLInput in Hi. rewrite Hm in Hi.
    simpl in Hi. unfold bind at 1 in Hi. rewrite Hv, Ht in Hi.
    unfold bind in Hi.
    destruct (body_field (body request) "variables" h) as [c h1] eqn:Hvars.
    apply body_field_heap in Hvars as ->.
    destruct c; [|done..]. destruct v; by inversion Hi.
Qed.

End Further.

(** * The further properties at concrete inputs *)

Lemma extractMultipartVariables_nothing_to_do_witness :
  extractMultipartVariables (H := sample_externals) (VRef 0) [("0", [])]
    (only_part_0 (VRef 1)) two_variables_heap
  = (Normal (VRef 0),
     two_variables_heap ++ [Obj KObject {[ "variables" := VRef 0 ]}]).
Proof.
  apply (extractMultipartVariables_nothing_to_do (H := sample_externals)).
  constructor; [split; reflexivity|constructor].
Defined.

Lemma extractMultipartVariables_first_failure_witness :
  extractMultipartVariables (H := sample_externals) (VRef 0)
    ([("0", ["variables.a"])] ++ ("0", ["variables.c.d"]) :: [("9", [])])
    (only_part_0 (VRef 1)) two_variables_heap
  = (Throw (Error "Property 'variables,c' is not in operations."),
     [ Obj KObject (<["a" := VRef 1]> {[ "b" := VNull ]}); Obj KFile ∅;
       Obj KObject {[ "variables" := VRef 0 ]} ]).
Proof.
  apply (extractMultipartVariables_first_failure (H := sample_externals)
           (VRef 0) [("0", ["variables.a"])] [("9", [])] ("0", ["variables.c.d"])
           (only_part_0 (VRef 1)) two_variables_heap
           [ Obj KObject (<["a" := VRef 1]> {[ "b" := VNull ]}); Obj KFile ∅;
             Obj KObject {[ "variables" := VRef 0 ]} ]);
    vm_compute; reflexivity.
Defined.


Lemma assign_dotPath_read_back_witness :
  lookup_path
    [ Obj KObject {[ "file" := VRef 2 ]};
      Obj KObject {[ "variables" := VRef 0 ]};
      Obj KFile ∅ ]
    (VRef 1) ["variables"; "file"]
  = Some (VRef 2).
Proof.
  apply (assign_dotPath_read_back (H := sample_externals) (VRef 1)
           (only_part_0 (VRef 2)) "0" "variables.file" wrapped_variables_heap
           [ Obj KObject {[ "file" := VRef 2 ]};
             Obj KObject {[ "variables" := VRef 0 ]};
             Obj KFile ∅ ]
           (VRef 2)).
  - reflexivity.
  - reflexivity.
  - vm_compute. intros Hin. apply list_elem_of_singleton in Hin. discriminate Hin.
Defined.

Lemma extractMultipartVariables_one_segment_witness :
  extractMultipartVariables (H := sample_externals) (VRef 0) [("0", ["variables"])]
    (only_part_0 (VRef 1)) two_variables_heap
  = (Normal (VRef 1),
     two_variables_heap ++ [Obj KObject {[ "variables" := VRef 1 ]}])
  /\ extractMultipartVariables (H := sample_externals) (VRef 0) [("0", ["file"])]
       (only_part_0 (VRef 1)) two_variables_heap
     = (Normal (VRef 0),
        two_variables_heap ++
        [Obj KObject (<["file" := VRef 1]> {[ "variables" := VRef 0 ]})]).
Proof.
  split.
  - pose proof (extractMultipartVariables_one_segment (H := sample_externals)
                  (VRef 0) (VRef 1) (only_part_0 (VRef 1)) "0" "variables"
                  two_variables_heap eq_refl eq_refl
                  (fun Hne => False_ind _ (Hne eq_refl))) as Hone.
    rewrite Hone. vm_compute. reflexivity.
  - pose proof (extractMultipartVariables_one_segment (H := sample_externals)
                  (VRef 0) (VRef 1) (only_part_0 (VRef 1)) "0" "file"
                  two_variables_heap eq_refl eq_refl (fun _ => eq_refl)) as Hone.
    rewrite Hone. vm_compute. reflexivity.
Defined.

Lemma extractMultipartVariables_top_level_witness :
  extractMultipartVariables (H := sample_externals) (VRef 0)
    [("0", ["variables.a"])] (only_part_0 (VRef 1)) two_variables_heap
  = (Normal (VRef 0),
     [ Obj KObject (<["a" := VRef 1]> {[ "b" := VNull ]}); Obj KFile ∅;
       Obj KObject {[ "variables" := VRef 0 ]} ]).
Proof.
  exact (extractMultipartVariables_top_level (H := sample_externals) 0
           (Obj KObject (<["a" := VNull]> {[ "b" := VNull ]})) (VRef 1)
           (only_part_0 (VRef 1)) "0" "a" two_variables_heap
           eq_refl eq_refl eq_refl (fun _ => eq_refl)).
Defined.

Lemma parseGraphQLRequest_not_GraphQL_witness :
  parseGraphQLRequest (H := sample_externals)
    {| method := "PUT"; searchParams := [("query", "{x}")]; body := VRef 0 |}
    json_body_heap
  = (Normal None, json_body_heap, [])
  /\ parseGraphQLRequest (H := sample_externals) (POST_to (VString "{x}")) []
     = (Normal None, [], []).
Proof.
  split.
  - apply (parseGraphQLRequest_not_GraphQL (H := sample_externals)).
    left. split; discriminate.
  - apply (parseGraphQLRequest_not_GraphQL (H := sample_externals)).
    right. split; reflexivity.
Defined.

Lemma parseGraphQLRequest_undecodable_operations_witness :
  parseGraphQLRequest (H := sample_externals) (POST_to (VRef 0))
    undecodable_operations_heap
  = (Normal None, undecodable_operations_heap, []).
Proof.
  apply (parseGraphQLRequest_undecodable_operations (H := sample_externals)
           (POST_to (VRef 0)) undecodable_operations_heap 0
           (Obj KObject (<["operations" := VString "not json"]>
                           {[ "map" := VString map_text ]}))
           "not json");
    try reflexivity; try discriminate.
  left. reflexivity.
Defined.

Lemma getGraphQLInput_multipart_without_map_witness :
  getGraphQLInput (H := sample_externals) (POST_to (VRef 1)) no_map_heap
  = (Normal (Some {| query := Some "query Test{x}"; variables := VRef 2 |}),
     no_map_heap ++
     [ Obj KObject {[ "file" := VNull ]};
       Obj KObject {[ "variables" := VRef 2 ]} ]).
Proof.
  destruct (getGraphQLInput_multipart_without_map (H := sample_externals)
              (POST_to (VRef 1)) no_map_heap 1
              (Obj KObject (<["operations" := VString operations_text]>
                              {[ "0" := VRef 0 ]}))
              operations_text EmptyString
              (JObj [("query", JStr "query Test{x}");
                     ("variables", JObj [("file", JNull)])])
              (JObj [("file", JNull)]) "query Test{x}"
              eq_refl eq_refl eq_refl eq_refl eq_refl ltac:(discriminate)
              eq_refl eq_refl ltac:(discriminate) eq_refl eq_refl
              (or_introl (conj eq_refl eq_refl)))
    as (v & fresh & Halloc & Hinput).
  vm_compute in Halloc. injection Halloc as <- <-. exact Hinput.
Defined.

Lemma parseGraphQLRequest_parsed_witness :
  parseGraphQLRequest (H := sample_externals) (POST_to (VRef 0)) json_body_heap
  = (Normal (Some {| req_operationType := Some op_query;
                     req_operationName := None;
                     req_variables := VRef 1 |}), json_body_heap, []).
Proof.
  exact (parseGraphQLRequest_parsed (H := sample_externals) (POST_to (VRef 0))
           json_body_heap json_body_heap
           {| query := Some "{x}"; variables := VRef 1 |} "{x}"
           [OperationDefinition op_query None] [] [] op_query None
           eq_refl eq_refl ltac:(discriminate) eq_refl eq_refl eq_refl).
Defined.

Lemma getGraphQLInput_GET_without_variables_witness :
  getGraphQLInput (H := sample_externals)
    {| method := "GET"; searchParams := [("query", "{x}")]; body := VUndefined |} []
  = (Normal (Some {| query := Some "{x}"; variables := VUndefined |}), []).
Proof.
  apply (proj1 (getGraphQLInput_GET_without_variables (H := sample_externals)
                  {| method := "GET"; searchParams := [("query", "{x}")];
                     body := VUndefined |} [] eq_refl eq_refl)).
Defined.

Lemma extractMultipartVariables_several_variables_witness :
  extractMultipartVariables (H := sample_externals) (VRef 0)
    [("0", ["variables.a"; "variables.b"])] (only_part_0 (VRef 1))
    two_variables_heap
  = (Normal (VRef 0),
     [ Obj KObject (<["a" := VRef 1]> {[ "b" := VRef 1 ]}); Obj KFile ∅;
       Obj KObject {[ "variables" := VRef 0 ]} ]).
Proof.
  pose proof (extractMultipartVariables_several_variables (H := sample_externals)
                0 (Obj KObject (<["a" := VNull]> {[ "b" := VNull ]})) (VRef 1)
                (only_part_0 (VRef 1)) "0" ["a"; "b"] two_variables_heap
                eq_refl eq_refl
                ltac:(repeat constructor)
                ltac:(repeat constructor; intros Hnone; vm_compute in Hnone;
                      discriminate Hnone)) as Hseveral.
  exact Hseveral.
Defined.

(** * The amended claims at concrete inputs *)



(** C6, as stated, fails for a multipart body whose query does not parse
    and whose map names a part that is not there: the error is thrown
    before the query is parsed, and nothing is logged. *)
Lemma parseGraphQLRequest_invalid_query_counterexample :
  parse (Externals := sample_externals) "{" = inl (Error "Syntax Error")
  /\ parseGraphQLRequest (H := sample_externals) (POST_to (VRef 0))
       invalid_query_missing_file_heap
     = (Throw (Error "Given files do not have a key '0' ."),
        invalid_query_missing_file_heap ++
        [ Obj KObject {[ "file" := VNull ]};
          Obj KObject {[ "variables" := VRef 1 ]} ],
        []).
Proof. split; vm_compute; reflexivity. Qed.

Lemma parseGraphQLRequest_invalid_query_witness :
  parseGraphQLRequest (H := sample_externals)
    {| method := "GET"; searchParams := [("query", "{")]; body := VUndefined |} []
  = (Normal None, [],
     [LogString
        ("[MSW] Failed to intercept a GraphQL request to " +:+ dquote +:+
         "GET http://localhost/graphql" +:+ dquote +:+
         ": cannot parse query. See the error message from the parser below.");
      LogError (Error "Syntax Error")])
  /\ exists h',
      parseGraphQLRequest (H := sample_externals) (POST_to (VRef 0))
        invalid_query_missing_file_heap
      = (Throw (Error "Given files do not have a key '0' ."), h', []).
Proof.
  split.
  - apply (proj1 (proj1 (parseGraphQLRequest_invalid_query (H := sample_externals)
                           {| method := "GET"; searchParams := [("query", "{")];
                              body := VUndefined |} [])
                    {| query := Some "{"; variables := VUndefined |} []
                    "{" (Error "Syntax Error")
                    eq_refl eq_refl ltac:(discriminate) eq_refl)).
  - eexists.
    apply (proj2 (parseGraphQLRequest_invalid_query (H := sample_externals)
                    (POST_to (VRef 0)) invalid_query_missing_file_heap)).
    vm_compute. reflexivity.
Defined.

(** * The revised further properties at concrete inputs *)

Lemma assign_dotPath_one_write_witness :
  (assign_dotPath (H := sample_externals) (VRef 1) (only_part_0 (VRef 2)) "0"
     "variables.nested.file" wrapped_variables_heap).2
  = wrapped_variables_heap
  /\ exists l o,
      wrapped_variables_heap !! l = Some o
      /\ (assign_dotPath (H := sample_externals) (VRef 1) (only_part_0 (VRef 2)) "0"
            "variables.file" wrapped_variables_heap).2
         = <[l := Obj (okind o)
                    (<["file" := VRef 2]> (oprops o))]> wrapped_variables_heap.
Proof.
  split.
  - apply (proj1 (assign_dotPath_one_write (H := sample_externals) (VRef 1)
                    (only_part_0 (VRef 2)) "0" "variables.nested.file"
                    wrapped_variables_heap)
             (Error "Property 'variables,nested' is not in operations.")).
    reflexivity.
  - destruct (proj2 (assign_dotPath_one_write (H := sample_externals) (VRef 1)
                       (only_part_0 (VRef 2)) "0" "variables.file"
                       wrapped_variables_heap) eq_refl)
      as (l & o & _ & Hl & Hwrite).
    exists l, o. split; [exact Hl|exact Hwrite].
Defined.

Lemma extractMultipartVariables_only_extends_witness :
  List.length
    [ Obj KObject (<["a" := VRef 1]> {[ "b" := VNull ]}); Obj KFile ∅;
      Obj KObject {[ "variables" := VRef 0 ]} ]
  = S (List.length two_variables_heap)
  /\ store_extends two_variables_heap
       [ Obj KObject (<["a" := VRef 1]> {[ "b" := VNull ]}); Obj KFile ∅;
         Obj KObject {[ "variables" := VRef 0 ]} ].
Proof.
  apply (extractMultipartVariables_only_extends (H := sample_externals)
           (VRef 0) two_entries_map (only_part_0 (VRef 1)) two_variables_heap _
           (Throw (Error "Given files do not have a key '1' .")));
    [vm_compute; reflexivity|discriminate].
Defined.

Lemma parseGraphQLRequest_only_extends_witness :
  List.length multipart_heap
  <= List.length
       (multipart_heap ++
        [ Obj KObject {[ "file" := VRef 0 ]};
          Obj KObject {[ "variables" := VRef 2 ]} ])
  /\ store_extends multipart_heap
       (multipart_heap ++
        [ Obj KObject {[ "file" := VRef 0 ]};
          Obj KObject {[ "variables" := VRef 2 ]} ]).
Proof.
  apply (parseGraphQLRequest_only_extends (H := sample_externals)
           (POST_to (VRef 1)) multipart_heap _
           (Normal (Some {| req_operationType := Some op_query;
                            req_operationName := Some "Test";
                            req_variables := VRef 2 |})) []);
    [vm_compute; reflexivity|discriminate].
Defined.

Lemma getGraphQLInput_rest_pattern_witness :
  getGraphQLInput (H := sample_externals) (POST_to (VRef 1))
    map_keyed_operations_heap
  = (Throw (Error "Given files do not have a key 'operations' ."),
     (map_keyed_operations_heap ++ [Obj KObject {[ "file" := VNull ]}])
     ++ [Obj KObject {[ "variables" := VRef 2 ]}])
  /\ getGraphQLInput (H := sample_externals) (POST_to (VRef 0)) map_keyed_note_heap
     = (Normal (Some {| query := Some "query Test{x}"; variables := VRef 1 |}),
        (map_keyed_note_heap ++ [Obj KObject {[ "file" := VNull ]}])
        ++ [Obj KObject {[ "variables" := VRef 1 ]}]).
Proof.
  split.
  - apply (proj1 (getGraphQLInput_rest_pattern (H := sample_externals)
                    (POST_to (VRef 1)) map_keyed_operations_heap
                    (map_keyed_operations_heap ++ [Obj KObject {[ "file" := VNull ]}])
                    1
                    (Obj KObject
                       (<["operations" := VString operations_text]>
                          (<["map" := VString (dq "{'operations':['variables.file']}")]>
                             {[ "0" := VRef 0 ]})))
                    operations_text (dq "{'operations':['variables.file']}")
                    (JObj [("query", JStr "query Test{x}");
                           ("variables", JObj [("file", JNull)])])
                    (JObj [("file", JNull)])
                    (JObj [("operations", JArr [JStr "variables.file"])])
                    "query Test{x}" "operations" ["variables.file"] [] (VRef 2)
                    eq_refl eq_refl eq_refl eq_refl eq_refl ltac:(discriminate)
                    eq_refl eq_refl ltac:(discriminate) eq_refl eq_refl
                    eq_refl eq_refl eq_refl ltac:(vm_compute; reflexivity)));
      [left; reflexivity|reflexivity].
  - apply (proj2 (getGraphQLInput_rest_pattern (H := sample_externals)
                    (POST_to (VRef 0)) map_keyed_note_heap
                    (map_keyed_note_heap ++ [Obj KObject {[ "file" := VNull ]}])
                    0
                    (Obj KObject
                       (<["operations" := VString operations_text]>
                          (<["map" := VString (dq "{'note':[]}")]>
                             {[ "note" := VString "hello" ]})))
                    operations_text (dq "{'note':[]}")
                    (JObj [("query", JStr "query Test{x}");
                           ("variables", JObj [("file", JNull)])])
                    (JObj [("file", JNull)])
                    (JObj [("note", JArr [])])
                    "query Test{x}" "note" [] [] (VRef 1)
                    eq_refl eq_refl eq_refl eq_refl eq_refl ltac:(discriminate)
                    eq_refl eq_refl ltac:(discriminate) eq_refl eq_refl
                    eq_refl eq_refl eq_refl ltac:(vm_compute; reflexivity)));
      [discriminate|discriminate|by eexists|reflexivity|reflexivity].
Defined.
